(** * Agriassist chatbot: the response resolver of [backend/app1.py]

    A shallow embedding of [find_best_response] and of the [/chat]
    endpoint, together with the properties the specification states
    about them.

    Python values are modelled as follows.
    - [str] is a sequence of Unicode code points: [pystr := list N].
    - [float] scores are exact rationals [Q] (every finite float is one;
      the comparisons of the code are exact on them).
    - The external services (language detector, translation service,
      sentence-embedding model) are fields of a record [Services]; the
      two the code guards with [try]/[except] may raise.
    - Calls to libraries are recorded, in order, in a log, and Python
      exceptions are an outcome of a computation: the monad [M]. *)

From Stdlib Require Import QArith Qround Qabs Lqa.
From stdpp Require Import base list strings gmap.

Local Open Scope N_scope.

(** ** Python strings *)

Abbreviation pystr := (list N).

(** An ASCII literal of the source, as code points. *)
Definition py (s : string) : pystr :=
  map Ascii.N_of_ascii (String.list_ascii_of_string s).

(** [str.isspace] for one code point: the table of CPython's
    [_PyUnicode_IsWhitespace]. *)
Definition isspace (c : N) : bool :=
  ((0x09 <=? c) && (c <=? 0x0D))
  || ((0x1C <=? c) && (c <=? 0x20))
  || (c =? 0x85) || (c =? 0xA0) || (c =? 0x1680)
  || ((0x2000 <=? c) && (c <=? 0x200A))
  || (c =? 0x2028) || (c =? 0x2029) || (c =? 0x202F)
  || (c =? 0x205F) || (c =? 0x3000).

Fixpoint lstrip (s : pystr) : pystr :=
  match s with
  | [] => []
  | c :: rest => if isspace c then lstrip rest else s
  end.

Definition rstrip (s : pystr) : pystr := rev (lstrip (rev s)).

(** [s.strip()] *)
Definition strip (s : pystr) : pystr := rstrip (lstrip s).

(** Lowercase of an ASCII code point. *)
Definition ascii_lower (c : N) : N :=
  if (0x41 <=? c) && (c <=? 0x5A) then c + 32 else c.

Fixpoint startswith (prefix s : pystr) : bool :=
  match prefix, s with
  | [], _ => true
  | _ :: _, [] => false
  | a :: prefix', b :: s' => (a =? b) && startswith prefix' s'
  end.

(** [needle in hay] on strings: substring containment. *)
Fixpoint str_in (needle hay : pystr) : bool :=
  startswith needle hay ||
  match hay with
  | [] => false
  | _ :: hay' => str_in needle hay'
  end.

Fixpoint str_eqb (a b : pystr) : bool :=
  match a, b with
  | [], [] => true
  | x :: a', y :: b' => (x =? y) && str_eqb a' b'
  | _, _ => false
  end.

(** [x in l] on a list of strings. *)
Definition list_in (x : pystr) (l : list pystr) : bool :=
  existsb (str_eqb x) l.

(** [re.search] for the class U+0900..U+097F: some code point of [s] lies in the
    Devanagari block. *)
Definition is_devanagari (c : N) : bool := (0x0900 <=? c) && (c <=? 0x097F).
Definition search_devanagari (s : pystr) : bool := existsb is_devanagari s.

(** ** Regular expressions

    The fragment of [re] the pattern table uses: every pattern of the
    table is a sequence of ordinary characters.  [re_compile] refuses a
    pattern with a metacharacter; [re_matches] decides whether the whole
    string matches, by derivatives. *)

Inductive regex : Type :=
| ReFail : regex
| ReEmpty : regex
| ReChar : N -> regex
| ReSeq : regex -> regex -> regex
| ReAlt : regex -> regex -> regex.

Fixpoint nullable (r : regex) : bool :=
  match r with
  | ReFail => false
  | ReEmpty => true
  | ReChar _ => false
  | ReSeq r1 r2 => nullable r1 && nullable r2
  | ReAlt r1 r2 => nullable r1 || nullable r2
  end.

Fixpoint derive (c : N) (r : regex) : regex :=
  match r with
  | ReFail => ReFail
  | ReEmpty => ReFail
  | ReChar d => if c =? d then ReEmpty else ReFail
  | ReSeq r1 r2 =>
      if nullable r1
      then ReAlt (ReSeq (derive c r1) r2) (derive c r2)
      else ReSeq (derive c r1) r2
  | ReAlt r1 r2 => ReAlt (derive c r1) (derive c r2)
  end.

Fixpoint re_matches (r : regex) (s : pystr) : bool :=
  match s with
  | [] => nullable r
  | c :: rest => re_matches (derive c r) rest
  end.

(** The characters [re] gives a special meaning: . ^ $ * + ? { } [ ] \ | ( ) *)
Definition is_meta (c : N) : bool :=
  list_in [c] (map (fun m => [m]) (py ".^$*+?{}[]\|()")).

Fixpoint re_compile (pattern : pystr) : option regex :=
  match pattern with
  | [] => Some ReEmpty
  | c :: rest =>
      if is_meta c then None
      else match re_compile rest with
           | Some r => Some (ReSeq (ReChar c) r)
           | None => None
           end
  end.

(** [re.fullmatch(pattern, text)] for a pattern of the fragment.  (No
    pattern of the table lies outside it: [table_in_fragment] below.) *)
Definition re_fullmatch (pattern text : pystr) : bool :=
  match re_compile pattern with
  | Some r => re_matches r text
  | None => false
  end.

(** ** Floats *)

Definition Qltb (a b : Q) : bool := negb (Qle_bool b a).

(** Rounding to the nearest integer, ties to the even one. *)
Definition round_half_even (q : Q) : Z :=
  let f := Qfloor q in
  match Qcompare (q - inject_Z f) (1 # 2) with
  | Lt => f
  | Gt => (f + 1)%Z
  | Eq => if Z.even f then f else (f + 1)%Z
  end.

(** [round(x, 2)]: the decimal with two places nearest to [x]. *)
Definition round2 (x : Q) : Q := Qmake (round_half_even (x * 100)) 100.

(** [np.argmax]: index of the first occurrence of the maximum. *)
Fixpoint argmax_from (l : list Q) (i best_i : nat) (best : Q) : nat :=
  match l with
  | [] => best_i
  | x :: rest =>
      if Qltb best x then argmax_from rest (S i) i x
      else argmax_from rest (S i) best_i best
  end.

Definition argmax (l : list Q) : option nat :=
  match l with
  | [] => None
  | x :: rest => Some (argmax_from rest 1 0 x)
  end.

(** ** Effects: library calls and exceptions *)

Inductive exn : Type := PyException (kind : string) (msg : pystr).

Definition exn_msg (e : exn) : pystr := let 'PyException _ m := e in m.

Inductive outcome (A : Type) : Type :=
| Returned (a : A)
| Raised (e : exn).
Arguments Returned {A} a.
Arguments Raised {A} e.

(** The library calls a run performs. *)
Inductive call : Type :=
| CallDetect (text : pystr)
| CallTranslate (text src dest : pystr)
| CallFullmatch (pattern text : pystr)
| CallEncode (text : pystr)
| CallPrint (line : pystr).

(** A computation: the calls it made, in order, and how it ended. *)
Definition M (A : Type) : Type := (list call * outcome A)%type.

Definition calls {A} (m : M A) : list call := fst m.
Definition result {A} (m : M A) : outcome A := snd m.

Definition ret {A} (a : A) : M A := ([], Returned a).
Definition raise {A} (e : exn) : M A := ([], Raised e).

Definition bind {A B} (m : M A) (k : A -> M B) : M B :=
  match m with
  | (log, Returned a) => let '(log', r) := k a in (log ++ log', r)
  | (log, Raised e) => (log, Raised e)
  end.

(** [try: body  except Exception as e: handler e] *)
Definition try_except {A} (body : M A) (handler : exn -> M A) : M A :=
  match body with
  | (log, Returned a) => (log, Returned a)
  | (log, Raised e) => let '(log', r) := handler e in (log ++ log', r)
  end.

Arguments bind : simpl never.
Arguments try_except : simpl never.

Notation "'let*' x ':=' m 'in' k" := (bind m (fun x => k))
  (at level 10, x pattern, m at level 100, k at level 200).

(** ** The external services *)

Record Services : Type := {
  (** [langdetect.detect(text)] *)
  detect : pystr -> outcome pystr;
  (** [translator.translate(text, src=.., dest=..).text] *)
  translate : pystr -> pystr -> pystr -> outcome pystr;
  (** cosine similarity of the SBERT embeddings of a query and of a
      stored question *)
  cos_sim : pystr -> pystr -> Q;
  (** [str.lower] outside ASCII: the lowercase of a code point, given
      the text before and after it *)
  unicode_lower : pystr -> N -> pystr -> pystr
}.

Section Resolver.

Context (sv : Services).

Definition call_detect (text : pystr) : M pystr :=
  ([CallDetect text], detect sv text).

Definition call_translate (text src dest : pystr) : M pystr :=
  ([CallTranslate text src dest], translate sv text src dest).

Definition call_fullmatch (pattern text : pystr) : M bool :=
  ([CallFullmatch pattern text], Returned (re_fullmatch pattern text)).

Definition print (line : pystr) : M unit := ([CallPrint line], Returned tt).

(** [s.lower()] *)
Fixpoint lower_from (before s : pystr) : pystr :=
  match s with
  | [] => []
  | c :: rest =>
      (if c <? 128 then [ascii_lower c] else unicode_lower sv before c rest)
        ++ lower_from (before ++ [c]) rest
  end.

Definition lower (s : pystr) : pystr := lower_from [] s.

(** *** Constants of [find_best_response] *)

Definition predefined_responses : list (pystr * pystr) :=
  [
    (py "how are you",
     py "I'm just a chatbot, but I'm doing great! How about you?");
    (py "how's it going",
     py "Everything is running smoothly! How can I assist you?");
    (py "how do you do",
     py "I'm doing well! Thanks for asking. How can I help?");
    (py "what is your name",
     py "I'm your Agricultural Chatbot! Here to assist you with farming-related queries.");
    (py "who are you",
     py "I'm an AI-powered agricultural chatbot, here to help farmers and agriculture enthusiasts.");
    (py "what can you do",
     py "I can provide information related to farming, crops, and agricultural best practices.");
    (py "who created you",
     py "I was developed as part of a research project on AI and ML-powered agricultural chatbots.");
    (py "are you a robot",
     py "Yes, I'm an AI chatbot, designed to help with agricultural questions.");
    (py "do you speak other languages",
     py "Currently, I only support English.");
    (py "tell me a joke",
     py "Why did the farmer win an award? Because he was outstanding in his field!");
    (py "tell me something interesting",
     py "Did you know? Earthworms can improve soil fertility by breaking down organic matter into nutrient-rich compost!");
    (py "hello",
     py "Hello! How can I assist you today?");
    (py "hi",
     py "Hi there! What would you like to know?");
    (py "hey",
     py "Hey! How" ++ [0x2019] ++ py "s it going?");
    (py "good morning",
     py "Good morning! Hope you have a great day ahead.");
    (py "good afternoon",
     py "Good afternoon! How can I help?");
    (py "good evening",
     py "Good evening! Need any assistance?");
    (py "good night",
     py "Good night! Take care and rest well.");
    (py "howdy",
     py "Howdy! What brings you here today?");
    (py "yo",
     py "Yo! What's up?");
    (py "namaste",
     py "Namaste! How can I assist you?");
    (py "hola",
     py "Hola! How can I help you?");
    (py "bonjour",
     py "Bonjour! What do you need assistance with?")
  ].

Definition hindi_marathi_keywords : list pystr :=
  map py
    [ "kya"; "kaise"; "kab"; "kyu"; "bhat"; "sheti"; "pani";
      "fasal"; "ugae"; "zameen"; "shet"; "krishi"; "beej";
      "ugana"; "ugaye"; "khet"; "paani"; "anna"; "jal"; "khad"; "rog";
      "beej"; "sheti" ]%string.

Definition allowed_languages : list pystr :=
  map py ["en"; "hi"; "mr"; "gu"; "bn"; "ta"; "te"; "kn"; "ml"; "pa"]%string.

Definition no_data_message : pystr := py "Error: No data available.".

Definition unsupported_message : pystr :=
  py "Sorry, I can only understand major Indian languages like Hindi, Marathi, Gujarati, Bengali, Tamil, Telugu, Kannada, Malayalam, Punjabi, and English.".

Definition fallback_message : pystr :=
  py "I'm sorry, I don't have an answer for that.".

(** *** The blocks of [find_best_response] *)

(** Lines 76-81: the detector, with English on failure. *)
Definition detect_language (original_input : pystr) : M pystr :=
  try_except
    (let* detected_lang := call_detect original_input in
     let* _ := print (py "Detected language: " ++ detected_lang) in
     ret detected_lang)
    (fun e =>
       let* _ := print (py "Language detection error: " ++ exn_msg e) in
       ret (py "en")).

(** Line 89 *)
Definition is_romanish (original_input : pystr) : bool :=
  existsb (fun word => str_in word (lower original_input))
          hindi_marathi_keywords.

(** Line 99: the condition of the rejection. *)
Definition unsupported (detected_lang original_input : pystr) : bool :=
  negb (list_in detected_lang allowed_languages)
  && negb (search_devanagari original_input).

(** Line 103 *)
Definition needs_translation
    (detected_lang original_input : pystr) (romanish : bool) : bool :=
  negb (str_eqb detected_lang (py "en"))
  || search_devanagari original_input
  || romanish.

(** Lines 106-113 *)
Definition translate_input (needs : bool) (original_input : pystr)
  : M pystr :=
  if needs then
    try_except
      (call_translate original_input (py "auto") (py "en"))
      (fun e =>
         let* _ := print (py "Translation error: " ++ exn_msg e) in
         ret original_input)
  else ret original_input.

(** Lines 120-124, 136-140 and 146-150: the same block three times, with
    a different label in the message it prints. *)
Definition translate_reply
    (label : string) (needs : bool) (detected_lang text : pystr)
  : M pystr :=
  try_except
    (if needs then call_translate text (py "en") detected_lang
     else ret text)
    (fun e =>
       let* _ := print (py label ++ py " translation error: " ++ exn_msg e) in
       ret text).

(** Lines 118-125: the loop over the table, which returns from the
    function at the first rule that matches; [otherwise] is the rest of
    the function. *)
Fixpoint check_patterns
    (needs : bool) (detected_lang translated : pystr)
    (rules : list (pystr * pystr)) (otherwise : M (pystr * Q))
  : M (pystr * Q) :=
  match rules with
  | [] => otherwise
  | (pattern, response) :: rules' =>
      let* hit := call_fullmatch pattern translated in
      if hit then
        let* response := translate_reply "Response" needs detected_lang response in
        ret (response, 1%Q)
      else check_patterns needs detected_lang translated rules' otherwise
  end.

(** Lines 128-152: the SBERT matching over the dataset [qa_data]. *)
Definition sbert_match
    (qa_data : list (pystr * pystr))
    (needs : bool) (detected_lang translated : pystr)
  : M (pystr * Q) :=
  let* similarities :=
    ([CallEncode translated],
     Returned (map (fun qa => cos_sim sv translated (fst qa)) qa_data)) in
  let* best_match_idx :=
    match argmax similarities with
    | Some i => ret i
    | None => raise (PyException "ValueError" (py "attempt to get argmax of an empty sequence"))
    end in
  let* best_match_score :=
    match similarities !! best_match_idx with
    | Some x => ret x
    | None => raise (PyException "IndexError" (py "index out of range"))
    end in
  if Qltb best_match_score (1 # 2) then
    let* fallback := translate_reply "Fallback" needs detected_lang fallback_message in
    ret (fallback, best_match_score)
  else
    let* response :=
      match qa_data !! best_match_idx with
      | Some qa => ret (snd qa)
      | None => raise (PyException "IndexError" (py "list index out of range"))
      end in
    let* response := translate_reply "Answer" needs detected_lang response in
    ret (response, best_match_score).

(** *** [find_best_response], over the dataset loaded at start-up *)
Definition find_best_response
    (qa_data : list (pystr * pystr)) (user_input : pystr)
  : M (pystr * Q) :=
  match qa_data with
  | [] => ret (no_data_message, 0%Q)
  | _ :: _ =>
      let original_input := strip user_input in
      let* detected_lang := detect_language original_input in
      let romanish := is_romanish original_input in
      let detected_lang := if romanish then py "hi" else detected_lang in
      if unsupported detected_lang original_input then
        ret (unsupported_message, 0%Q)
      else
        let needs := needs_translation detected_lang original_input romanish in
        let* translated := translate_input needs original_input in
        let translated := strip (lower translated) in
        check_patterns needs detected_lang translated predefined_responses
          (sbert_match qa_data needs detected_lang translated)
  end.

(** *** The [/chat] endpoint *)

Record reply : Type := { response : pystr; confidence : Q }.

(** [chat()]: [data] is the JSON object of the request, a dictionary of
    string fields; the result is the JSON body and the HTTP status. *)
Definition chat (qa_data : list (pystr * pystr)) (data : gmap string pystr)
  : M (reply * nat) :=
  let user_input := strip (default [] (data !! "message"%string)) in
  match user_input with
  | [] =>
      ret ({| response := py "Please enter a valid question.";
              confidence := 0%Q |}, 400%nat)
  | _ :: _ =>
      let* answer := find_best_response qa_data user_input in
      let '(bot_response, confidence_score) := answer in
      ret ({| response := bot_response;
              confidence := round2 confidence_score |}, 200%nat)
  end.

End Resolver.

(** * Start-up: [load_dataset] and the module level

    [load_dataset] reads the file line by line and parses each line with
    [json.loads].  The file system and the JSON parser are a record
    [Runtime]: opening a file gives the lines the iteration yields and
    the exception, if any, that the iteration raises after them. *)

(** The values [json.loads] returns.  The items of a [PyDict] are those
    of the dictionary, one per key. *)
Local Unset Elimination Schemes.
Inductive pyvalue : Type :=
| PyNone : pyvalue
| PyBool : bool -> pyvalue
| PyInt : Z -> pyvalue
| PyFloat : pystr -> pyvalue
| PyStr : pystr -> pyvalue
| PyList : list pyvalue -> pyvalue
| PyDict : list (pystr * pyvalue) -> pyvalue.
Local Set Elimination Schemes.

Definition type_name (v : pyvalue) : string :=
  match v with
  | PyNone => "NoneType"
  | PyBool _ => "bool"
  | PyInt _ => "int"
  | PyFloat _ => "float"
  | PyStr _ => "str"
  | PyList _ => "list"
  | PyDict _ => "dict"
  end.

Fixpoint dict_get (key : pystr) (items : list (pystr * pyvalue))
  : option pyvalue :=
  match items with
  | [] => None
  | (k, v) :: items' => if str_eqb k key then Some v else dict_get key items'
  end.

(** [data[key]] for a key that is a plain word. *)
Definition getitem (data : pyvalue) (key : pystr) : outcome pyvalue :=
  match data with
  | PyDict items =>
      match dict_get key items with
      | Some v => Returned v
      | None => Raised (PyException "KeyError" (py "'" ++ key ++ py "'"))
      end
  | PyStr _ =>
      Raised (PyException "TypeError"
                (py "string indices must be integers, not 'str'"))
  | PyList _ =>
      Raised (PyException "TypeError"
                (py "list indices must be integers or slices, not str"))
  | _ =>
      Raised (PyException "TypeError"
                (py "'" ++ py (type_name data)
                    ++ py "' object is not subscriptable"))
  end.

Record Runtime : Type := {
  (** [open(filepath, "r", encoding="utf-8")] and the iteration over the
      file: the lines, and the exception raised after them if any *)
  open_lines : pystr -> outcome (list pystr * option exn);
  (** [json.loads(text)] *)
  json_loads : pystr -> outcome pyvalue
}.

Definition outcome_bind {A B} (o : outcome A) (k : A -> outcome B)
  : outcome B :=
  match o with
  | Returned a => k a
  | Raised e => Raised e
  end.

Definition exn_kind (e : exn) : string := let 'PyException k _ := e in k.

Section Startup.

Context (sv : Services) (rt : Runtime).

(** [value.lower()] *)
Definition method_lower (v : pyvalue) : outcome pystr :=
  match v with
  | PyStr s => Returned (lower sv s)
  | _ =>
      Raised (PyException "AttributeError"
                (py "'" ++ py (type_name v)
                    ++ py "' object has no attribute 'lower'"))
  end.

(** Lines 26-27: the pair a line contributes. *)
Definition read_pair (line : pystr) : outcome (pystr * pyvalue) :=
  outcome_bind (json_loads rt (strip line)) (fun data =>
  outcome_bind (getitem data (py "prompt")) (fun prompt =>
  outcome_bind (method_lower prompt) (fun question =>
  outcome_bind (getitem data (py "completion")) (fun completion =>
  Returned (question, completion))))).

(** Lines 25-27: the loop, with [qa_pairs] as it stands when the loop
    ends or raises. *)
Fixpoint read_pairs (lines : list pystr) (qa_pairs : list (pystr * pyvalue))
  : list (pystr * pyvalue) * option exn :=
  match lines with
  | [] => (qa_pairs, None)
  | line :: lines' =>
      match read_pair line with
      | Returned entry => read_pairs lines' (qa_pairs ++ [entry])
      | Raised e => (qa_pairs, Some e)
      end
  end.

(** Lines 28-30: [except FileNotFoundError], then [return qa_pairs]. *)
Definition except_file_not_found
    (filepath : pystr) (qa_pairs : list (pystr * pyvalue)) (e : exn)
  : M (list (pystr * pyvalue)) :=
  if String.eqb (exn_kind e) "FileNotFoundError" then
    let* _ := print (py "Error: " ++ filepath ++ py " not found.") in
    ret qa_pairs
  else raise e.

(** [load_dataset(filepath)] *)
Definition load_dataset (filepath : pystr) : M (list (pystr * pyvalue)) :=
  match open_lines rt filepath with
  | Raised e => except_file_not_found filepath [] e
  | Returned (lines, read_error) =>
      match read_pairs lines [] with
      | (qa_pairs, Some e) => except_file_not_found filepath qa_pairs e
      | (qa_pairs, None) =>
          match read_error with
          | Some e => except_file_not_found filepath qa_pairs e
          | None => ret qa_pairs
          end
      end
  end.

Definition DATASET_PATH : pystr := py "backend/Bigdata_cleaned.jsonl".

End Startup.

(** The dataset as [find_best_response] reads it, when every answer of
    the loaded pairs is a string. *)
Fixpoint text_pairs (qa_pairs : list (pystr * pyvalue))
  : option (list (pystr * pystr)) :=
  match qa_pairs with
  | [] => Some []
  | (question, PyStr answer) :: rest =>
      match text_pairs rest with
      | Some l => Some ((question, answer) :: l)
      | None => None
      end
  | _ => None
  end.

(** * The [/chat] endpoint on any JSON body

    [chat] above reads a body whose fields are strings.  [chat_json] is
    the same code on whatever [request.json] gives: the methods [get] and
    [strip] raise [AttributeError] on a value that does not have them,
    and the exception leaves the handler (the framework answers 500). *)

(** [data.get(key, default)] *)
Definition method_get (data : pyvalue) (key : pystr) (default : pyvalue)
  : outcome pyvalue :=
  match data with
  | PyDict items =>
      match dict_get key items with
      | Some v => Returned v
      | None => Returned default
      end
  | _ =>
      Raised (PyException "AttributeError"
                (py "'" ++ py (type_name data)
                    ++ py "' object has no attribute 'get'"))
  end.

(** [value.strip()] *)
Definition method_strip (v : pyvalue) : outcome pystr :=
  match v with
  | PyStr s => Returned (strip s)
  | _ =>
      Raised (PyException "AttributeError"
                (py "'" ++ py (type_name v)
                    ++ py "' object has no attribute 'strip'"))
  end.

(** [chat()], lines 160-172, with [data] the value of [request.json]. *)
Definition chat_json
    (sv : Services) (qa_data : list (pystr * pystr)) (data : pyvalue)
  : M (reply * nat) :=
  let* message := ([], method_get data (py "message") (PyStr [])) in
  let* user_input := ([], method_strip message) in
  match user_input with
  | [] =>
      ret ({| response := py "Please enter a valid question.";
              confidence := 0%Q |}, 400%nat)
  | _ :: _ =>
      let* answer := find_best_response sv qa_data user_input in
      let '(bot_response, confidence_score) := answer in
      ret ({| response := bot_response;
              confidence := round2 confidence_score |}, 200%nat)
  end.

(** * The pipeline in the words of the specification

    The values the specification names at each step of the resolver, as
    functions of the services and of the input.  The lemmas below relate
    them to what [find_best_response] computes. *)


Definition is_ascii (c : N) : bool := c <? 128.


(** An ASCII lowercase letter. *)
Definition is_lower_letter (c : N) : bool := (0x61 <=? c) && (c <=? 0x7A).

(** Some code point of [text] is in the Devanagari block. *)
Definition has_devanagari (text : pystr) : Prop :=
  exists c, In c text /\ 0x0900 <= c <= 0x097F.

Definition in_fragment (p : pystr) : bool :=
  match re_compile p with Some _ => true | None => false end.

(** [s] is the greatest score of [l], and [i] the first index that has it. *)
Definition is_first_max (l : list Q) (i : nat) (s : Q) : Prop :=
  l !! i = Some s
  /\ (forall j x, l !! j = Some x -> (x <= s)%Q)
  /\ (forall j x, (j < i)%nat -> l !! j = Some x -> (x < s)%Q).

Section Reading.

Context (sv : Services).

(** Step 1 of the classifier: the detector's tag, English when it fails. *)
Definition detected (original : pystr) : pystr :=
  match detect sv original with
  | Returned tag => tag
  | Raised _ => py "en"
  end.

(** Step 2: the keyword override. *)
Definition language_tag (original : pystr) : pystr :=
  if is_romanish sv original then py "hi" else detected original.

(** Translator, site (a): the input in English, the input itself when
    the service fails. *)
Definition inbound (needs : bool) (original : pystr) : pystr :=
  if needs then
    match translate sv original (py "auto") (py "en") with
    | Returned t => t
    | Raised _ => original
    end
  else original.

(** Translator, sites (b) and (c): a reply in the detected language, the
    reply itself when the service fails. *)
Definition outbound (needs : bool) (tag text : pystr) : pystr :=
  if needs then
    match translate sv text (py "en") tag with
    | Returned t => t
    | Raised _ => text
    end
  else text.

(** Steps 3 and 4: the processed text. *)
Definition processed (needs : bool) (original : pystr) : pystr :=
  strip (lower sv (inbound needs original)).

(** The scores of the processed text against the stored questions. *)
Definition similarities (qa_data : list (pystr * pystr)) (text : pystr)
  : list Q :=
  map (fun qa => cos_sim sv text (fst qa)) qa_data.

End Reading.

(** The call that translates the input: the only one whose source
    language is left to the service. *)
Definition is_inbound_translation (c : call) : bool :=
  match c with
  | CallTranslate _ src _ => str_eqb src (py "auto")
  | _ => false
  end.


(** Translation, pattern matching and embedding search. *)
Definition is_pipeline_work (c : call) : bool :=
  match c with
  | CallTranslate _ _ _ | CallFullmatch _ _ | CallEncode _ => true
  | CallDetect _ | CallPrint _ => false
  end.

(** ** Concrete services and data, for examples *)

(** A detector that always answers [tag], a translation service that
    answers [translation text], an embedding model under which every
    pair of texts has similarity [score]. *)
Definition constant_services
    (tag : string) (translation : pystr -> outcome pystr) (score : Q)
  : Services :=
  {| detect := fun _ => Returned (py tag);
     translate := fun text _ _ => translation text;
     cos_sim := fun _ _ => score;
     unicode_lower := fun _ c _ => [c] |}.

(** The detector answers English, the translation service gives the text
    back, every similarity is 0.6. *)
Definition english_services : Services :=
  constant_services "en" Returned (6 # 10).

(** "namaste" in Devanagari. *)
Definition namaste : pystr :=
  [0x0928; 0x092E; 0x0938; 0x094D; 0x0924; 0x0947].

(** The detector answers French, the translation service gives the text
    back. *)
Definition french_services : Services :=
  constant_services "fr" Returned (6 # 10).

Definition service_down : pystr -> outcome pystr :=
  fun _ => Raised (PyException "Exception" (py "service unavailable")).

Definition wheat_data : list (pystr * pystr) :=
  [(py "how to grow wheat", py "Sow wheat in November.")].

(** A translation service that fails on the input and answers on the
    replies, in upper case where the reply has ASCII lowercase letters. *)
Definition ascii_upper (c : N) : N :=
  if is_lower_letter c then c - 32 else c.

Definition inbound_down_services : Services :=
  {| detect := fun _ => Returned (py "mr");
     translate := fun text src _ =>
       if str_eqb src (py "auto") then service_down text
       else Returned (map ascii_upper text);
     cos_sim := fun _ _ => (6 # 10)%Q;
     unicode_lower := fun _ c _ => [c] |}.

(** The calls of one guarded translation: none when no translation is
    needed, else the call and, when it raises, the line printed. *)
Definition translation_log
    (sv : Services) (needs : bool) (text src dest : pystr)
    (line : exn -> pystr) : list call :=
  if needs then
    CallTranslate text src dest ::
    match translate sv text src dest with
    | Returned _ => []
    | Raised e => [CallPrint (line e)]
    end
  else [].

(** Kinds of calls. *)
Definition is_translation (c : call) : bool :=
  match c with CallTranslate _ _ _ => true | _ => false end.

Definition is_encode (c : call) : bool :=
  match c with CallEncode _ => true | _ => false end.

Definition is_fullmatch (c : call) : bool :=
  match c with CallFullmatch _ _ => true | _ => false end.

(** The patterns of [rules] up to and including the first that fully
    matches [text]. *)
Fixpoint scanned (text : pystr) (rules : list (pystr * pystr)) : list pystr :=
  match rules with
  | [] => []
  | (pattern, _) :: rules' =>
      pattern :: (if re_fullmatch pattern text then [] else scanned text rules')
  end.

(** A file system in which no file exists, and one with a single file of
    the given lines; a parser that knows the two lines of the example. *)
Definition no_file : pystr -> outcome (list pystr * option exn) :=
  fun _ => Raised (PyException "FileNotFoundError"
                     (py "[Errno 2] No such file or directory")).

Definition quoted (s : string) : pystr := [0x22] ++ py s ++ [0x22].

Definition wheat_line : pystr :=
  py "{" ++ quoted "prompt" ++ py ": " ++ quoted "How to grow Wheat"
    ++ py ", " ++ quoted "completion" ++ py ": "
    ++ quoted "Sow wheat in November." ++ py "}".

Definition example_loads (text : pystr) : outcome pyvalue :=
  if str_eqb text wheat_line then
    Returned (PyDict [(py "prompt", PyStr (py "How to grow Wheat"));
                      (py "completion", PyStr (py "Sow wheat in November."))])
  else if str_eqb text (py "{}") then Returned (PyDict [])
  else Raised (PyException "JSONDecodeError" (py "Expecting value")).

Definition empty_runtime : Runtime :=
  {| open_lines := no_file; json_loads := example_loads |}.

Definition file_runtime (lines : list pystr) : Runtime :=
  {| open_lines := fun _ => Returned (lines, None);
     json_loads := example_loads |}.

(** * Properties *)

(** ** Strings *)

Lemma str_eqb_eq (a b : pystr) : str_eqb a b = true <-> a = b.
Proof.
  revert b; induction a as [|x a IH]; intros [|y b]; simpl; split;
    try congruence; try reflexivity.
  - rewrite andb_true_iff, N.eqb_eq, IH. intros [-> ->]; reflexivity.
  - intros [= -> ->]. rewrite N.eqb_refl. simpl. apply IH; reflexivity.
Qed.

Lemma str_eqb_refl (a : pystr) : str_eqb a a = true.
Proof. apply str_eqb_eq; reflexivity. Qed.

Lemma str_eqb_neq (a b : pystr) : str_eqb a b = false <-> a <> b.
Proof.
  rewrite <- str_eqb_eq. destruct (str_eqb a b); split; congruence.
Qed.

Lemma list_in_spec (x : pystr) (l : list pystr) :
  list_in x l = true <-> In x l.
Proof.
  unfold list_in. rewrite existsb_exists. split.
  - intros (y & Hy & Heq). apply str_eqb_eq in Heq. subst; assumption.
  - intros H. exists x. split; [assumption | apply str_eqb_refl].
Qed.



(** What [strip] removes is white space at both ends, and what it keeps
    neither starts nor ends with white space. *)
Lemma lstrip_split (s : pystr) :
  exists ws, s = ws ++ lstrip s /\ forallb isspace ws = true.
Proof.
  induction s as [|c s (ws & Hs & Hws)]; simpl.
  - exists []. split; reflexivity.
  - destruct (isspace c) eqn:Hc.
    + exists (c :: ws). simpl. rewrite Hc, Hws. split; [congruence | reflexivity].
    + exists []. split; reflexivity.
Qed.

Lemma strip_split (s : pystr) :
  exists ws ws', s = ws ++ strip s ++ ws'
                 /\ forallb isspace ws = true /\ forallb isspace ws' = true.
Proof.
  destruct (lstrip_split s) as (ws & Hs & Hws).
  destruct (lstrip_split (rev (lstrip s))) as (wr & Hr & Hwr).
  exists ws, (rev wr). split; [|split].
  - unfold strip, rstrip. rewrite <- rev_app_distr, <- Hr, rev_involutive.
    exact Hs.
  - exact Hws.
  - rewrite forallb_forall in *. intros x Hx. apply Hwr.
    apply in_rev. exact Hx.
Qed.

Lemma existsb_strip (P : N -> bool) (s : pystr) :
  (forall c, P c = true -> isspace c = false) ->
  existsb P (strip s) = existsb P s.
Proof.
  intros HP. destruct (strip_split s) as (ws & ws' & Hs & Hws & Hws').
  assert (Hno : forall w, forallb isspace w = true -> existsb P w = false).
  { intros w Hw. apply not_true_is_false. rewrite existsb_exists.
    intros (c & Hc & HPc). rewrite forallb_forall in Hw.
    specialize (Hw c Hc). rewrite (HP c HPc) in Hw. discriminate. }
  rewrite Hs at 2. rewrite !existsb_app, (Hno ws Hws), (Hno ws' Hws').
  rewrite orb_false_r. reflexivity.
Qed.

(** Letters and Devanagari code points are not white space. *)
Lemma letter_or_devanagari_not_space (c : N) :
  0x41 <= c <= 0x7A \/ 0x0900 <= c <= 0x097F -> isspace c = false.
Proof.
  intros H. unfold isspace.
  repeat match goal with
         | |- context [?a <=? ?b] =>
             first [ replace (a <=? b) with true by (symmetry; apply N.leb_le; lia)
                   | replace (a <=? b) with false by (symmetry; apply N.leb_gt; lia) ]
         | |- context [?a =? ?b] =>
             replace (a =? b) with false by (symmetry; apply N.eqb_neq; lia)
         end.
  reflexivity.
Qed.

Lemma devanagari_not_space (c : N) : is_devanagari c = true -> isspace c = false.
Proof.
  unfold is_devanagari. rewrite andb_true_iff, !N.leb_le.
  intros [H1 H2]. apply letter_or_devanagari_not_space. lia.
Qed.

Lemma search_devanagari_strip (s : pystr) :
  search_devanagari (strip s) = search_devanagari s.
Proof. apply existsb_strip, devanagari_not_space. Qed.




(** [lower] on a run of ASCII code points does not depend on what
    surrounds the run. *)


Lemma lower_from_ascii (sv : Services) (s rest before : pystr) :
  forallb is_ascii s = true ->
  lower_from sv before (s ++ rest)
  = map ascii_lower s ++ lower_from sv (before ++ s) rest.
Proof.
  revert before; induction s as [|c s IH]; intros before; simpl.
  - intros _. rewrite app_nil_r. reflexivity.
  - rewrite andb_true_iff. unfold is_ascii at 1. intros [Hc Hs].
    rewrite Hc, (IH _ Hs), <- app_assoc. reflexivity.
Qed.


(** ** Regular expressions: a compiled pattern matches itself only *)

Lemma re_matches_fail (s : pystr) : re_matches ReFail s = false.
Proof. induction s; simpl; auto. Qed.

Lemma re_matches_seq_fail (r : regex) (s : pystr) :
  re_matches (ReSeq ReFail r) s = false.
Proof. induction s; simpl; auto. Qed.

Lemma re_matches_alt (r1 r2 : regex) (s : pystr) :
  re_matches (ReAlt r1 r2) s = re_matches r1 s || re_matches r2 s.
Proof. revert r1 r2; induction s; intros; simpl; auto. Qed.

Lemma re_matches_seq_empty (r : regex) (s : pystr) :
  re_matches (ReSeq ReEmpty r) s = re_matches r s.
Proof.
  destruct s as [|c s]; simpl; [reflexivity|].
  rewrite re_matches_alt, re_matches_seq_fail. reflexivity.
Qed.

Lemma re_matches_seq_char (c : N) (r : regex) (s : pystr) :
  re_matches (ReSeq (ReChar c) r) s =
  match s with
  | [] => false
  | d :: s' => (d =? c) && re_matches r s'
  end.
Proof.
  destruct s as [|d s]; simpl; [reflexivity|].
  destruct (d =? c).
  - apply re_matches_seq_empty.
  - apply re_matches_seq_fail.
Qed.

Lemma re_compile_literal (p : pystr) (r : regex) (s : pystr) :
  re_compile p = Some r -> re_matches r s = str_eqb s p.
Proof.
  revert r s; induction p as [|c p IH]; intros r s; simpl.
  - intros [= <-]. destruct s; simpl; [reflexivity | apply re_matches_fail].
  - destruct (is_meta c); [discriminate|].
    destruct (re_compile p) as [r'|]; [|discriminate].
    intros [= <-]. rewrite re_matches_seq_char.
    destruct s as [|d s]; [reflexivity|]. simpl.
    rewrite (IH r' s eq_refl). reflexivity.
Qed.

(** A full match by a pattern of the fragment is equality with it. *)
Lemma re_fullmatch_eq (p s : pystr) : re_fullmatch p s = true -> s = p.
Proof.
  unfold re_fullmatch. destruct (re_compile p) as [r|] eqn:Hp; [|discriminate].
  rewrite (re_compile_literal p r s Hp). apply str_eqb_eq.
Qed.

Lemma re_fullmatch_literal (p s : pystr) :
  in_fragment p = true -> re_fullmatch p s = str_eqb s p.
Proof.
  unfold in_fragment, re_fullmatch.
  destruct (re_compile p) as [r|] eqn:Hp; [|discriminate].
  intros _. apply (re_compile_literal p r s Hp).
Qed.

(** Every pattern of the table is in the fragment, and no two rules have
    the same pattern. *)
Lemma table_in_fragment :
  forallb (fun rule => in_fragment (fst rule)) predefined_responses = true.
Proof. vm_compute. reflexivity. Qed.

Lemma table_patterns_distinct : NoDup (map fst predefined_responses).
Proof.
  apply (bool_decide_unpack (NoDup (map fst predefined_responses))).
  vm_compute. exact I.
Qed.

(** ** Scores *)

Lemma Qltb_lt (a b : Q) : Qltb a b = true <-> (a < b)%Q.
Proof.
  unfold Qltb. rewrite negb_true_iff, <- not_true_iff_false, Qle_bool_iff.
  split; [apply Qnot_le_lt | apply Qlt_not_le].
Qed.

Lemma Qltb_ge (a b : Q) : Qltb a b = false <-> (b <= a)%Q.
Proof.
  unfold Qltb. rewrite negb_false_iff. apply Qle_bool_iff.
Qed.

Lemma argmax_from_spec (l seen : list Q) (best_i : nat) (best : Q) :
  is_first_max seen best_i best ->
  exists s,
    is_first_max (seen ++ l) (argmax_from l (length seen) best_i best) s.
Proof.
  revert seen best_i best.
  induction l as [|x l IH]; intros seen best_i best (Hat & Hmax & Hfirst); simpl.
  - exists best. rewrite app_nil_r. repeat split; assumption.
  - assert (Hlen : (best_i < length seen)%nat) by (eapply lookup_lt_Some; eauto).
    replace (seen ++ x :: l) with ((seen ++ [x]) ++ l)
      by (rewrite <- app_assoc; reflexivity).
    replace (S (length seen)) with (length (seen ++ [x]))
      by (rewrite length_app; simpl; lia).
    destruct (Qltb best x) eqn:Hcmp; apply IH; repeat split.
    + rewrite lookup_app_r by lia. rewrite Nat.sub_diag. reflexivity.
    + apply Qltb_lt in Hcmp. intros j y Hy.
      apply lookup_app_Some in Hy as [Hy | [_ Hy]].
      * apply Qle_trans with best; [eauto | apply Qlt_le_weak; assumption].
      * destruct (j - length seen)%nat; simpl in Hy; [|discriminate].
        injection Hy as <-. apply Qle_refl.
    + apply Qltb_lt in Hcmp. intros j y Hj Hy.
      rewrite lookup_app_l in Hy by assumption.
      apply Qle_lt_trans with best; eauto.
    + rewrite lookup_app_l by assumption. assumption.
    + apply Qltb_ge in Hcmp. intros j y Hy.
      apply lookup_app_Some in Hy as [Hy | [_ Hy]]; [eauto|].
      destruct (j - length seen)%nat; simpl in Hy; [|discriminate].
      injection Hy as <-. assumption.
    + intros j y Hj Hy. rewrite lookup_app_l in Hy by lia. eauto.
Qed.

Lemma argmax_spec (l : list Q) :
  l <> [] -> exists i s, argmax l = Some i /\ is_first_max l i s.
Proof.
  destruct l as [|x l]; [congruence|]. intros _.
  destruct (argmax_from_spec l [x] 0%nat x) as [s Hs].
  - repeat split.
    + intros [|j] y Hy; simpl in Hy; [|discriminate].
      injection Hy as <-. apply Qle_refl.
    + intros j y Hj. lia.
  - exists (argmax_from l 1 0 x), s. split; [reflexivity | exact Hs].
Qed.

(** The first maximum is determined by the list. *)
Lemma is_first_max_unique (l : list Q) (i j : nat) (s t : Q) :
  is_first_max l i s -> is_first_max l j t -> i = j /\ s = t.
Proof.
  intros (Hi & Hmi & Hfi) (Hj & Hmj & Hfj).
  assert (i = j) as ->.
  { destruct (Nat.lt_total i j) as [H | [H | H]]; [|assumption|].
    - exfalso. apply (Qlt_not_le _ _ (Hfj i s H Hi)). eauto.
    - exfalso. apply (Qlt_not_le _ _ (Hfi j t H Hj)). eauto. }
  split; congruence.
Qed.

(** ** Computations *)

Lemma result_bind {A B} (m : M A) (k : A -> M B) :
  result (bind m k) =
  match result m with
  | Returned a => result (k a)
  | Raised e => Raised e
  end.
Proof.
  unfold bind. destruct m as [log [a|e]]; simpl; [|reflexivity].
  destruct (k a); reflexivity.
Qed.

Lemma calls_bind {A B} (m : M A) (k : A -> M B) :
  calls (bind m k) =
  calls m ++ match result m with
             | Returned a => calls (k a)
             | Raised e => []
             end.
Proof.
  unfold bind. destruct m as [log [a|e]]; simpl; [|rewrite app_nil_r; reflexivity].
  destruct (k a); reflexivity.
Qed.

Lemma result_try_except {A} (body : M A) (handler : exn -> M A) :
  result (try_except body handler) =
  match result body with
  | Returned a => Returned a
  | Raised e => result (handler e)
  end.
Proof.
  unfold try_except. destruct body as [log [a|e]]; simpl; [reflexivity|].
  destruct (handler e); reflexivity.
Qed.

Lemma calls_try_except {A} (body : M A) (handler : exn -> M A) :
  calls (try_except body handler) =
  calls body ++ match result body with
                | Returned a => []
                | Raised e => calls (handler e)
                end.
Proof.
  unfold try_except. destruct body as [log [a|e]]; simpl; [rewrite app_nil_r; reflexivity|].
  destruct (handler e); reflexivity.
Qed.

Lemma result_pair {A} (log : list call) (r : outcome A) : result (log, r) = r.
Proof. reflexivity. Qed.

Lemma calls_pair {A} (log : list call) (r : outcome A) : calls (log, r) = log.
Proof. reflexivity. Qed.

Lemma bind_returned {A B} (m : M A) (k : A -> M B) (a : A) :
  result m = Returned a ->
  bind m k = (calls m ++ calls (k a), result (k a)).
Proof.
  unfold bind. destruct m as [log r]; simpl. intros ->. destruct (k a); reflexivity.
Qed.

(** ** The blocks of the resolver *)

Section Blocks.

Context (sv : Services).

Lemma detect_language_result (original : pystr) :
  result (detect_language sv original) = Returned (detected sv original).
Proof.
  unfold detect_language, detected, call_detect.
  rewrite result_try_except, result_bind. simpl.
  destruct (detect sv original); reflexivity.
Qed.

Lemma detect_language_calls (original : pystr) :
  exists line,
    calls (detect_language sv original)
    = [CallDetect original; CallPrint line].
Proof.
  unfold detect_language, call_detect.
  rewrite calls_try_except, result_bind, calls_bind. simpl.
  destruct (detect sv original); simpl; eexists; reflexivity.
Qed.

Lemma translate_input_result (needs : bool) (original : pystr) :
  result (translate_input sv needs original)
  = Returned (inbound sv needs original).
Proof.
  unfold translate_input, inbound, call_translate.
  destruct needs; [|reflexivity].
  rewrite result_try_except. simpl.
  destruct (translate sv original (py "auto") (py "en")); reflexivity.
Qed.

Lemma translate_input_calls (needs : bool) (original : pystr) :
  existsb is_inbound_translation (calls (translate_input sv needs original))
  = needs.
Proof.
  unfold translate_input, call_translate.
  destruct needs; [|reflexivity].
  rewrite calls_try_except. reflexivity.
Qed.

Lemma translate_reply_result (label : string) (needs : bool) (tag text : pystr) :
  result (translate_reply sv label needs tag text)
  = Returned (outbound sv needs tag text).
Proof.
  unfold translate_reply, outbound, call_translate.
  rewrite result_try_except.
  destruct needs; [|reflexivity]. simpl.
  destruct (translate sv text (py "en") tag); reflexivity.
Qed.

Lemma translate_reply_calls (label : string) (needs : bool) (tag text : pystr) :
  existsb is_inbound_translation
          (calls (translate_reply sv label needs tag text)) = false.
Proof.
  unfold translate_reply, call_translate.
  rewrite calls_try_except.
  destruct needs; [|reflexivity]. simpl.
  destruct (translate sv text (py "en") tag); reflexivity.
Qed.

(** The loop over the table returns at the first rule that matches. *)
Lemma check_patterns_result
    (needs : bool) (tag text : pystr) (rules : list (pystr * pystr))
    (otherwise : M (pystr * Q)) :
  result (check_patterns sv needs tag text rules otherwise) =
  match List.find (fun rule => re_fullmatch (fst rule) text) rules with
  | Some rule => Returned (outbound sv needs tag (snd rule), 1%Q)
  | None => result otherwise
  end.
Proof.
  induction rules as [|[pattern response] rules IH]; simpl; [reflexivity|].
  rewrite result_bind. simpl.
  destruct (re_fullmatch pattern text); [|exact IH].
  rewrite result_bind, translate_reply_result. reflexivity.
Qed.

Lemma check_patterns_calls
    (needs : bool) (tag text : pystr) (rules : list (pystr * pystr))
    (otherwise : M (pystr * Q)) :
  existsb is_inbound_translation (calls otherwise) = false ->
  existsb is_inbound_translation
          (calls (check_patterns sv needs tag text rules otherwise)) = false.
Proof.
  intros Hother.
  induction rules as [|[pattern response] rules IH]; simpl; [exact Hother|].
  rewrite calls_bind. simpl.
  destruct (re_fullmatch pattern text); [|exact IH].
  rewrite calls_bind, translate_reply_result, existsb_app,
    translate_reply_calls. reflexivity.
Qed.

(** The SBERT matching, over a dataset that is not empty. *)
Lemma sbert_match_result
    (qa_data : list (pystr * pystr)) (needs : bool) (tag text : pystr) :
  qa_data <> [] ->
  exists i s qa,
    is_first_max (similarities sv qa_data text) i s
    /\ qa_data !! i = Some qa
    /\ result (sbert_match sv qa_data needs tag text) =
       Returned (if Qltb s (1 # 2)
                 then (outbound sv needs tag fallback_message, s)
                 else (outbound sv needs tag (snd qa), s)).
Proof.
  intros Hne.
  destruct (argmax_spec (similarities sv qa_data text)) as (i & s & Harg & Hmax).
  { unfold similarities. destruct qa_data; [congruence | discriminate]. }
  assert (Hqa : exists qa, qa_data !! i = Some qa).
  { destruct Hmax as (Hat & _). unfold similarities in Hat.
    rewrite list_lookup_fmap in Hat.
    destruct (qa_data !! i) as [qa|]; [eauto | discriminate]. }
  destruct Hqa as [qa Hqa]. exists i, s, qa.
  split; [exact Hmax | split; [exact Hqa|]].
  unfold sbert_match. rewrite result_bind. simpl.
  fold (similarities sv qa_data text). rewrite Harg, result_bind. simpl.
  destruct Hmax as (-> & _). rewrite result_bind. simpl.
  destruct (Qltb s (1 # 2)).
  - rewrite result_bind, translate_reply_result. reflexivity.
  - rewrite Hqa, result_bind. simpl.
    rewrite result_bind, translate_reply_result. reflexivity.
Qed.

Lemma sbert_match_calls
    (qa_data : list (pystr * pystr)) (needs : bool) (tag text : pystr) :
  existsb is_inbound_translation
          (calls (sbert_match sv qa_data needs tag text)) = false.
Proof.
  unfold sbert_match. rewrite calls_bind. simpl.
  destruct (argmax _) as [i|]; [|reflexivity].
  rewrite calls_bind. simpl.
  destruct (_ !! i) as [s|]; [|reflexivity].
  rewrite calls_bind. simpl.
  destruct (Qltb s (1 # 2)).
  - rewrite calls_bind, translate_reply_result, existsb_app,
      translate_reply_calls. reflexivity.
  - destruct (qa_data !! i) as [qa|]; [|reflexivity].
    rewrite calls_bind. simpl.
    rewrite calls_bind, translate_reply_result, existsb_app,
      translate_reply_calls. reflexivity.
Qed.




End Blocks.

(** ** The run of [find_best_response] *)

Lemma search_devanagari_spec (s : pystr) :
  search_devanagari s = true <-> has_devanagari s.
Proof.
  unfold search_devanagari, has_devanagari, is_devanagari.
  rewrite existsb_exists. split; intros (c & Hc & H); exists c; split; auto.
  - apply andb_true_iff in H as [H1 H2]. apply N.leb_le in H1, H2. lia.
  - apply andb_true_iff. rewrite !N.leb_le. lia.
Qed.

Section Run.

Context (sv : Services).

(** Over a dataset that is not empty the run is: the detector; then
    either the rejection, or the translation of the input followed by
    the loop over the table with the SBERT matching behind it. *)
Lemma find_best_response_run (qa_data : list (pystr * pystr)) (raw : pystr) :
  qa_data <> [] ->
  let original := strip raw in
  let tag := language_tag sv original in
  let needs := needs_translation tag original (is_romanish sv original) in
  let text := processed sv needs original in
  let rest :=
    check_patterns sv needs tag text predefined_responses
                   (sbert_match sv qa_data needs tag text) in
  find_best_response sv qa_data raw =
  if unsupported tag original
  then (calls (detect_language sv original),
        Returned (unsupported_message, 0%Q))
  else (calls (detect_language sv original)
          ++ calls (translate_input sv needs original) ++ calls rest,
        result rest).
Proof.
  intros Hne. unfold find_best_response.
  destruct qa_data as [|qa rest_data]; [congruence|].
  cbv zeta.
  rewrite (bind_returned _ _ _ (detect_language_result sv (strip raw))).
  fold (language_tag sv (strip raw)).
  destruct (unsupported (language_tag sv (strip raw)) (strip raw)).
  - simpl. rewrite app_nil_r. reflexivity.
  - rewrite (bind_returned _ _ _ (translate_input_result sv _ (strip raw))).
    simpl. reflexivity.
Qed.

Lemma find_best_response_empty (raw : pystr) :
  find_best_response sv [] raw = ret (no_data_message, 0%Q).
Proof. reflexivity. Qed.

End Run.

(** A rule of the table is determined by its pattern. *)
Lemma table_rule_unique (p r r' : pystr) :
  In (p, r) predefined_responses -> In (p, r') predefined_responses -> r = r'.
Proof.
  pose proof table_patterns_distinct as Hnd. revert Hnd.
  generalize predefined_responses as l.
  induction l as [|[q x] l IH]; simpl; [tauto|].
  intros Hnd Hr Hr'. apply NoDup_cons in Hnd as [Hq Hnd].
  assert (Hin : forall y, In (q, y) l -> False).
  { intros y Hy. apply Hq. apply list_elem_of_In.
    apply (in_map fst) in Hy. exact Hy. }
  destruct Hr as [Hr | Hr], Hr' as [Hr' | Hr'].
  - congruence.
  - exfalso. apply (Hin r'). congruence.
  - exfalso. apply (Hin r). congruence.
  - eauto.
Qed.

(** The loop over the table finds the one rule whose pattern is the text. *)
Lemma table_first_match (text p r : pystr) :
  In (p, r) predefined_responses ->
  re_fullmatch p text = true ->
  List.find (fun rule => re_fullmatch (fst rule) text) predefined_responses
  = Some (p, r).
Proof.
  intros Hin Hmatch.
  destruct (List.find _ predefined_responses) as [[q x]|] eqn:Hfind.
  - apply find_some in Hfind as [Hq Hqm]. simpl in Hqm.
    apply re_fullmatch_eq in Hmatch, Hqm. subst q. subst text.
    rewrite (table_rule_unique p r x Hin Hq). reflexivity.
  - apply (find_none _ _ Hfind) in Hin. simpl in Hin. congruence.
Qed.

Lemma table_no_match (text : pystr) :
  (forall rule, In rule predefined_responses ->
                re_fullmatch (fst rule) text = false) ->
  List.find (fun rule => re_fullmatch (fst rule) text) predefined_responses
  = None.
Proof.
  intros Hnone.
  destruct (List.find _ predefined_responses) as [rule|] eqn:Hfind;
    [|reflexivity].
  apply find_some in Hfind as [Hin Hm]. rewrite (Hnone rule Hin) in Hm.
  discriminate.
Qed.

(** * The claims *)

(** ** Pattern table *)

(** C1, as the code has it. Over a dataset that is not empty, when the
    input passes the language gate and the processed text, i.e. the input
    translated to English when [needs_translation] holds, then lowercased
    and trimmed, fully matches the pattern of a rule of the table, the
    resolver returns that rule's response, passed through the translation
    to the detected language when [needs_translation] holds, with
    confidence exactly 1.0. *)
Theorem pattern_hit_confidence_one
    (sv : Services) (qa_data : list (pystr * pystr)) (raw : pystr)
    (pattern response : pystr) :
  let original := strip raw in
  let tag := language_tag sv original in
  let needs := needs_translation tag original (is_romanish sv original) in
  qa_data <> [] ->
  unsupported tag original = false ->
  In (pattern, response) predefined_responses ->
  re_fullmatch pattern (processed sv needs original) = true ->
  result (find_best_response sv qa_data raw)
  = Returned (outbound sv needs tag response, 1%Q).
Proof.
  intros original tag needs Hne Hok Hin Hmatch.
  rewrite (find_best_response_run sv qa_data raw Hne).
  fold original tag needs. rewrite Hok, result_pair.
  rewrite check_patterns_result.
  rewrite (table_first_match _ pattern response Hin Hmatch). reflexivity.
Qed.

Lemma pattern_hit_confidence_one_witness :
  result (find_best_response english_services
                             wheat_data (py "  Hello "))
  = Returned (py "Hello! How can I assist you today?", 1%Q).
Proof.
  apply (pattern_hit_confidence_one
           english_services wheat_data
           (py "  Hello ") (py "hello")
           (py "Hello! How can I assist you today?")).
  - discriminate.
  - vm_compute. reflexivity.
  - do 11 right. left. reflexivity.
  - vm_compute. reflexivity.
Defined.

(** C1 fails as stated: the language gate comes before the table.  The
    input "bonjour", tagged French by the detector, has a processed text
    that fully matches the rule "bonjour", and the resolver returns the
    message about the supported languages with confidence 0. *)
Lemma matching_input_rejected_by_gate :
  In (py "bonjour", py "Bonjour! What do you need assistance with?")
     predefined_responses
  /\ re_fullmatch
       (py "bonjour")
       (processed french_services
          (needs_translation
             (language_tag french_services (strip (py "bonjour")))
             (strip (py "bonjour"))
             (is_romanish french_services (strip (py "bonjour"))))
          (strip (py "bonjour")))
     = true
  /\ result (find_best_response french_services wheat_data (py "bonjour"))
     = Returned (unsupported_message, 0%Q)
  /\ result (find_best_response french_services wheat_data (py "bonjour"))
     <> Returned
          (outbound french_services
             (needs_translation
                (language_tag french_services (strip (py "bonjour")))
                (strip (py "bonjour"))
                (is_romanish french_services (strip (py "bonjour"))))
             (language_tag french_services (strip (py "bonjour")))
             (py "Bonjour! What do you need assistance with?"),
           1%Q).
Proof.
  split; [do 22 right; left; reflexivity|].
  split; [vm_compute; reflexivity|].
  split; [vm_compute; reflexivity|].
  vm_compute. discriminate.
Qed.

(** ** Embedding search *)

(** C2. Over a dataset that is not empty, for an input that passes the
    language gate and whose processed text matches no rule of the table:
    with [s] the greatest cosine similarity of the processed text over
    the stored questions and [i] the first index that has it, the
    resolver returns, when [s >= 0.5], the stored answer at [i] and, when
    [s < 0.5], the fixed fallback string, in both cases passed through
    the translation to the detected language when [needs_translation]
    holds, and in both cases with confidence [s] itself. *)
Theorem threshold_law
    (sv : Services) (qa_data : list (pystr * pystr)) (raw : pystr) :
  let original := strip raw in
  let tag := language_tag sv original in
  let needs := needs_translation tag original (is_romanish sv original) in
  let text := processed sv needs original in
  qa_data <> [] ->
  unsupported tag original = false ->
  (forall rule, In rule predefined_responses ->
                re_fullmatch (fst rule) text = false) ->
  exists i s qa,
    is_first_max (similarities sv qa_data text) i s
    /\ qa_data !! i = Some qa
    /\ ((1 # 2 <= s)%Q ->
        result (find_best_response sv qa_data raw)
        = Returned (outbound sv needs tag (snd qa), s))
    /\ ((s < 1 # 2)%Q ->
        result (find_best_response sv qa_data raw)
        = Returned (outbound sv needs tag fallback_message, s)).
Proof.
  intros original tag needs text Hne Hok Hmiss.
  destruct (sbert_match_result sv qa_data needs tag text Hne)
    as (i & s & qa & Hmax & Hqa & Hres).
  exists i, s, qa. split; [exact Hmax | split; [exact Hqa|]].
  rewrite (find_best_response_run sv qa_data raw Hne).
  fold original tag needs text. rewrite Hok, result_pair.
  rewrite check_patterns_result, (table_no_match text Hmiss), Hres.
  split; intros Hs.
  - apply Qltb_ge in Hs. rewrite Hs. reflexivity.
  - apply Qltb_lt in Hs. rewrite Hs. reflexivity.
Qed.

Lemma threshold_law_witness :
  exists i s qa,
    is_first_max
      (similarities english_services wheat_data
                    (py "when to sow wheat")) i s
    /\ wheat_data !! i = Some qa
    /\ ((1 # 2 <= s)%Q ->
        result (find_best_response english_services
                                   wheat_data (py "When to sow wheat"))
        = Returned (snd qa, s))
    /\ ((s < 1 # 2)%Q ->
        result (find_best_response english_services
                                   wheat_data (py "When to sow wheat"))
        = Returned (fallback_message, s)).
Proof.
  apply (threshold_law english_services wheat_data
                       (py "When to sow wheat")).
  - discriminate.
  - vm_compute. reflexivity.
  - intros rule Hin. unfold predefined_responses in Hin.
    repeat (destruct Hin as [<- | Hin]; [vm_compute; reflexivity|]).
    contradiction.
Defined.

(** ** Language gate *)

(** C3. Over a dataset that is not empty, when the language tag (the
    detector's, English when it fails, Hindi when a keyword occurs) is
    not one of the ten allowed tags and the raw text has no code point in
    U+0900..U+097F, the resolver returns the fixed message about the
    supported languages, as it stands, with confidence 0.0, and the run
    makes no translation, pattern-matching or embedding call. *)
Theorem rejection_law
    (sv : Services) (qa_data : list (pystr * pystr)) (raw : pystr) :
  qa_data <> [] ->
  ~ In (language_tag sv (strip raw)) allowed_languages ->
  ~ has_devanagari raw ->
  result (find_best_response sv qa_data raw)
  = Returned (unsupported_message, 0%Q)
  /\ existsb is_pipeline_work (calls (find_best_response sv qa_data raw))
     = false.
Proof.
  intros Hne Htag Hdeva.
  rewrite (find_best_response_run sv qa_data raw Hne).
  assert (Hgate : unsupported (language_tag sv (strip raw)) (strip raw) = true).
  { unfold unsupported. apply andb_true_iff. split; apply negb_true_iff.
    - apply not_true_is_false. rewrite list_in_spec. exact Htag.
    - rewrite search_devanagari_strip. apply not_true_is_false.
      rewrite search_devanagari_spec. exact Hdeva. }
  rewrite Hgate, result_pair, calls_pair.
  split; [reflexivity|].
  destruct (detect_language_calls sv (strip raw)) as [line ->]. reflexivity.
Qed.

Lemma rejection_law_witness :
  result (find_best_response (constant_services "fr" service_down (6 # 10))
                             wheat_data (py "bonjour"))
  = Returned (unsupported_message, 0%Q)
  /\ existsb is_pipeline_work
       (calls (find_best_response
                 (constant_services "fr" service_down (6 # 10))
                 wheat_data (py "bonjour")))
     = false.
Proof.
  apply (rejection_law (constant_services "fr" service_down (6 # 10))
                       wheat_data (py "bonjour")).
  - discriminate.
  - rewrite <- list_in_spec. vm_compute. discriminate.
  - rewrite <- search_devanagari_spec. vm_compute. discriminate.
Defined.

(** ** Empty dataset *)

(** C4, as the code has it. Over the empty dataset the resolver answers
    every input, also one whose text fully matches a rule of the table,
    with the fixed message that no data is available and confidence 0.0,
    and makes no library call at all. *)
Theorem empty_dataset_answers_no_data (sv : Services) (raw : pystr) :
  result (find_best_response sv [] raw) = Returned (no_data_message, 0%Q)
  /\ calls (find_best_response sv [] raw) = [].
Proof. split; reflexivity. Qed.

(** C4 fails as stated: over the empty dataset the input "hello", whose
    processed text fully matches the rule "hello", does not receive that
    rule's response. *)
Lemma empty_dataset_hides_pattern_table :
  In (py "hello", py "Hello! How can I assist you today?")
     predefined_responses
  /\ re_fullmatch (py "hello")
                  (processed english_services false (strip (py "hello")))
     = true
  /\ result (find_best_response english_services [] (py "hello"))
     = Returned (py "Error: No data available.", 0%Q)
  /\ result (find_best_response english_services [] (py "hello"))
     <> Returned (py "Hello! How can I assist you today?", 1%Q).
Proof.
  split; [do 11 right; left; reflexivity|].
  split; [vm_compute; reflexivity|].
  split; [reflexivity|].
  vm_compute. discriminate.
Qed.

(** ** Range of the confidence *)

(** C5, as the code has it. The resolver always returns, and its
    confidence is 0.0 (empty dataset, rejected input), 1.0 (pattern hit)
    or, after a miss, the greatest cosine similarity of the processed
    text over the stored questions, as the embedding model gave it; so it
    lies in [0, 1] whenever the cosine similarities of the model do. *)
Theorem confidence_in_unit_interval
    (sv : Services) (qa_data : list (pystr * pystr)) (raw : pystr) :
  let original := strip raw in
  let tag := language_tag sv original in
  let needs := needs_translation tag original (is_romanish sv original) in
  let text := processed sv needs original in
  exists reply conf,
    result (find_best_response sv qa_data raw) = Returned (reply, conf)
    /\ match qa_data with
       | [] => conf = 0%Q
       | _ :: _ =>
           if unsupported tag original then conf = 0%Q
           else match List.find (fun rule => re_fullmatch (fst rule) text)
                                predefined_responses with
                | Some _ => conf = 1%Q
                | None =>
                    exists i,
                      is_first_max (similarities sv qa_data text) i conf
                end
       end
    /\ ((forall query stored, (0 <= cos_sim sv query stored <= 1)%Q) ->
        (0 <= conf <= 1)%Q).
Proof.
  intros original tag needs text.
  destruct qa_data as [|qa rest] eqn:Hdata.
  { exists no_data_message, 0%Q. split; [reflexivity|].
    split; [reflexivity|]. intros _. split; vm_compute; discriminate. }
  rewrite <- Hdata.
  assert (Hne : qa_data <> []) by (subst; discriminate).
  rewrite (find_best_response_run sv qa_data raw Hne).
  fold original tag needs text.
  destruct (unsupported tag original).
  { exists unsupported_message, 0%Q. split; [reflexivity|].
    split; [reflexivity|]. intros _. split; vm_compute; discriminate. }
  rewrite result_pair, check_patterns_result.
  destruct (List.find _ predefined_responses) as [rule|].
  { eexists _, 1%Q. split; [reflexivity|].
    split; [reflexivity|]. intros _. split; vm_compute; discriminate. }
  destruct (sbert_match_result sv qa_data needs tag text Hne)
    as (i & s & e & Hmax & _ & ->).
  assert (Hs : (forall query stored, (0 <= cos_sim sv query stored <= 1)%Q) ->
               (0 <= s <= 1)%Q).
  { intros Hsim. destruct Hmax as (Hat & _).
    unfold similarities in Hat. rewrite list_lookup_fmap in Hat.
    destruct (qa_data !! i) as [e'|]; [|discriminate].
    injection Hat as <-. apply Hsim. }
  destruct (Qltb s (1 # 2)); eexists _, s;
    (split; [reflexivity | split; [exists i; exact Hmax | exact Hs]]).
Qed.

Lemma confidence_in_unit_interval_witness :
  exists reply conf,
    result (find_best_response english_services wheat_data
                               (py "When to sow wheat"))
    = Returned (reply, conf)
    /\ (0 <= conf <= 1)%Q.
Proof.
  destruct (confidence_in_unit_interval
              english_services wheat_data (py "When to sow wheat"))
    as (reply & conf & Hres & _ & Hrange).
  exists reply, conf. split; [exact Hres|].
  apply Hrange. intros query stored. split; vm_compute; discriminate.
Defined.

(** C5 fails as stated: cosine similarity ranges over [-1, 1], and with
    a best score of -0.1 the resolver returns -0.1 as the confidence. *)
Lemma negative_score_is_returned :
  result (find_best_response (constant_services "en" Returned (-1 # 10))
                             wheat_data (py "wheat"))
  = Returned (fallback_message, (-1 # 10)%Q)
  /\ ~ (0 <= -1 # 10)%Q.
Proof.
  split; [vm_compute; reflexivity|].
  intros H. vm_compute in H. apply H. reflexivity.
Qed.

(** ** Romanized keywords *)









(** When [needs_translation] holds, the run asks the service to
    translate the input. *)
Lemma inbound_call_made
    (sv : Services) (qa_data : list (pystr * pystr)) (raw : pystr) :
  qa_data <> [] ->
  unsupported (language_tag sv (strip raw)) (strip raw) = false ->
  needs_translation (language_tag sv (strip raw)) (strip raw)
                    (is_romanish sv (strip raw)) = true ->
  In (CallTranslate (strip raw) (py "auto") (py "en"))
     (calls (find_best_response sv qa_data raw)).
Proof.
  intros Hne Hok Hneeds.
  rewrite (find_best_response_run sv qa_data raw Hne), Hok, calls_pair, Hneeds.
  apply in_or_app. right. apply in_or_app. left.
  unfold translate_input, call_translate. rewrite calls_try_except.
  left. reflexivity.
Qed.







(** ** Translation *)

Lemma inbound_calls_of_run
    (sv : Services) (qa_data : list (pystr * pystr)) (raw : pystr) :
  qa_data <> [] ->
  unsupported (language_tag sv (strip raw)) (strip raw) = false ->
  existsb is_inbound_translation (calls (find_best_response sv qa_data raw))
  = needs_translation (language_tag sv (strip raw)) (strip raw)
                      (is_romanish sv (strip raw)).
Proof.
  intros Hne Hok.
  rewrite (find_best_response_run sv qa_data raw Hne), Hok, calls_pair.
  rewrite !existsb_app, translate_input_calls.
  rewrite (check_patterns_calls sv _ _ _ _ _ (sbert_match_calls sv _ _ _ _)).
  destruct (detect_language_calls sv (strip raw)) as [line ->].
  simpl. rewrite orb_false_r. reflexivity.
Qed.

(** C7. For an input that reaches the translation step (dataset not
    empty, language gate passed): [needs_translation] is true exactly
    when the language tag is not English, or the raw text has a
    Devanagari code point, or the keyword override fired; the run asks
    for the translation of the input to English exactly when
    [needs_translation] is true; so a text tagged English that contains
    Devanagari is translated. *)
Theorem translation_gated_by_flag
    (sv : Services) (qa_data : list (pystr * pystr)) (raw : pystr) :
  let original := strip raw in
  let tag := language_tag sv original in
  let needs := needs_translation tag original (is_romanish sv original) in
  let inbound_call := CallTranslate original (py "auto") (py "en") in
  qa_data <> [] ->
  unsupported tag original = false ->
  (needs = true <->
   tag <> py "en" \/ has_devanagari raw \/ is_romanish sv original = true)
  /\ (In inbound_call (calls (find_best_response sv qa_data raw)) <->
      needs = true)
  /\ (tag = py "en" -> has_devanagari raw ->
      In inbound_call (calls (find_best_response sv qa_data raw))).
Proof.
  intros original tag needs inbound_call Hne Hok.
  assert (Hflag : needs = true <->
                  tag <> py "en" \/ has_devanagari raw
                  \/ is_romanish sv original = true).
  { unfold needs, needs_translation.
    rewrite !orb_true_iff, negb_true_iff, str_eqb_neq.
    change (search_devanagari original) with (search_devanagari (strip raw)).
    rewrite search_devanagari_strip.
    rewrite search_devanagari_spec. tauto. }
  assert (Hcall : In inbound_call (calls (find_best_response sv qa_data raw))
                  <-> needs = true).
  { split.
    - intros Hin. unfold needs, tag, original.
      rewrite <- (inbound_calls_of_run sv qa_data raw Hne Hok).
      apply existsb_exists. exists inbound_call. split; [exact Hin|].
      apply str_eqb_refl.
    - intros Hneeds. apply inbound_call_made; assumption. }
  split; [exact Hflag | split; [exact Hcall|]].
  intros _ Hdeva. apply Hcall, Hflag. right. left. exact Hdeva.
Qed.

Lemma translation_gated_by_flag_witness :
  language_tag english_services (strip namaste) = py "en"
  /\ In (CallTranslate (strip namaste) (py "auto") (py "en"))
        (calls (find_best_response english_services wheat_data namaste)).
Proof.
  destruct (translation_gated_by_flag english_services wheat_data namaste)
    as (_ & _ & Hdeva).
  - discriminate.
  - vm_compute. reflexivity.
  - split; [reflexivity|]. apply Hdeva; [reflexivity|].
    apply search_devanagari_spec. vm_compute. reflexivity.
Defined.

(** The resolver returns on every input: no exception leaves it. *)
Lemma find_best_response_returns
    (sv : Services) (qa_data : list (pystr * pystr)) (raw : pystr) :
  exists reply conf,
    result (find_best_response sv qa_data raw) = Returned (reply, conf).
Proof.
  destruct qa_data as [|qa rest] eqn:Hdata.
  { eexists _, _. reflexivity. }
  rewrite <- Hdata.
  assert (Hne : qa_data <> []) by (subst; discriminate).
  rewrite (find_best_response_run sv qa_data raw Hne).
  destruct (unsupported _ _).
  { eexists _, _. reflexivity. }
  rewrite result_pair, check_patterns_result.
  destruct (List.find _ predefined_responses) as [rule|].
  { eexists _, _. reflexivity. }
  match goal with
  | |- context [sbert_match sv qa_data ?n ?t ?x] =>
      destruct (sbert_match_result sv qa_data n t x Hne)
        as (i & s & e & _ & _ & ->)
  end.
  destruct (Qltb s (1 # 2)); eexists _, _; reflexivity.
Qed.

(** The sites fail one by one: with a service that fails on the input
    and answers on the replies, the untranslated input "hello" hits its
    rule and the response of the rule comes back translated; with a
    service that fails everywhere the response comes back as it is. *)
Example inbound_failure_alone :
  result (find_best_response inbound_down_services wheat_data (py "hello"))
  = Returned (py "HELLO! HOW CAN I ASSIST YOU TODAY?", 1%Q)
  /\ result (find_best_response (constant_services "mr" service_down (6 # 10))
                                wheat_data (py "hello"))
     = Returned (py "Hello! How can I assist you today?", 1%Q).
Proof. split; vm_compute; reflexivity. Qed.

(** ** The endpoint *)

Lemma round_half_even_close (q : Q) :
  (Qabs (q - inject_Z (round_half_even q)) <= 1 # 2)%Q.
Proof.
  unfold round_half_even.
  pose proof (Qfloor_le q) as Hlo. pose proof (Qlt_floor q) as Hhi.
  rewrite inject_Z_plus in Hhi. change (inject_Z 1) with 1%Q in Hhi.
  apply Qabs_Qle_condition.
  destruct (Qcompare (q - inject_Z (Qfloor q)) (1 # 2)) eqn:Hc.
  - apply Qeq_alt in Hc. destruct (Z.even (Qfloor q));
      rewrite ?inject_Z_plus; change (inject_Z 1) with 1%Q; split; lra.
  - apply Qlt_alt in Hc. split; lra.
  - apply Qgt_alt in Hc. rewrite inject_Z_plus.
    change (inject_Z 1) with 1%Q. split; lra.
Qed.

(** [round2 x] is a number of hundredths, at most half a hundredth away
    from [x]. *)
Lemma round2_close (x : Q) :
  (exists n : Z, round2 x = Qmake n 100)
  /\ (Qabs (x - round2 x) <= 1 # 200)%Q.
Proof.
  split; [eexists; reflexivity|].
  pose proof (round_half_even_close (x * 100)) as H.
  apply Qabs_Qle_condition in H. apply Qabs_Qle_condition.
  unfold round2. set (z := round_half_even (x * 100)) in *.
  rewrite (Qmake_Qdiv z 100). unfold Qdiv.
  change (/ inject_Z (Z.pos 100))%Q with (1 # 100)%Q.
  split; lra.
Qed.

Lemma bind_silent {A B} (a : A) (k : A -> M B) :
  bind ([], Returned a) k = k a.
Proof. unfold bind. destruct (k a); reflexivity. Qed.

(** On an object whose field [message] is a string, or is absent,
    [chat_json] is [chat] on the body with that field alone. *)
Lemma chat_json_string_message
    (sv : Services) (qa_data : list (pystr * pystr))
    (items : list (pystr * pyvalue)) :
  (forall m, dict_get (py "message") items = Some (PyStr m) ->
             chat_json sv qa_data (PyDict items)
             = chat sv qa_data (<["message"%string := m]> ∅))
  /\ (dict_get (py "message") items = None ->
      chat_json sv qa_data (PyDict items) = chat sv qa_data ∅).
Proof.
  unfold chat_json, chat, method_get. split.
  - intros m ->. rewrite lookup_insert_eq, bind_silent. simpl.
    rewrite bind_silent. reflexivity.
  - intros ->. rewrite lookup_empty, bind_silent. simpl.
    rewrite bind_silent. reflexivity.
Qed.

(** C9, as the code has it. [POST /chat], on a body that is an object
    whose field [message] is a string or is absent: when the field is
    absent, or empty once trimmed, the endpoint answers 400 with the
    fixed body; otherwise it answers 200 with the reply of the resolver
    on the trimmed message and the resolver's confidence rounded to two
    decimal places, the rounding being done here, on the value the
    resolver returned. *)
Theorem chat_contract
    (sv : Services) (qa_data : list (pystr * pystr))
    (items : list (pystr * pyvalue)) (message : pystr) :
  dict_get (py "message") items = None /\ message = []
  \/ dict_get (py "message") items = Some (PyStr message) ->
  (strip message = [] ->
   chat_json sv qa_data (PyDict items)
   = ret ({| response := py "Please enter a valid question.";
             confidence := 0%Q |}, 400%nat))
  /\ (strip message <> [] ->
      exists reply conf,
        result (find_best_response sv qa_data (strip message))
        = Returned (reply, conf)
        /\ result (chat_json sv qa_data (PyDict items))
           = Returned ({| response := reply; confidence := round2 conf |},
                       200%nat)
        /\ (Qabs (conf - round2 conf) <= 1 # 200)%Q).
Proof.
  intros Hmessage.
  assert (Hinput : chat_json sv qa_data (PyDict items)
                   = match strip message with
                     | [] =>
                         ret ({| response := py "Please enter a valid question.";
                                 confidence := 0%Q |}, 400%nat)
                     | _ :: _ =>
                         let* answer :=
                           find_best_response sv qa_data (strip message) in
                         let '(bot_response, confidence_score) := answer in
                         ret ({| response := bot_response;
                                 confidence := round2 confidence_score |},
                              200%nat)
                     end).
  { unfold chat_json, method_get.
    destruct Hmessage as [[-> ->] | ->]; rewrite bind_silent; simpl;
      rewrite bind_silent; reflexivity. }
  rewrite Hinput. split.
  - intros ->. reflexivity.
  - intros Hne.
    destruct (find_best_response_returns sv qa_data (strip message))
      as (reply & conf & Hres).
    exists reply, conf. split; [exact Hres|]. split; [|apply round2_close].
    destruct (strip message) as [|c rest] eqn:Hinput'; [congruence|].
    rewrite result_bind, Hres. reflexivity.
Qed.

Lemma chat_contract_witness :
  result (chat_json english_services wheat_data
                    (PyDict [(py "message", PyStr (py " hi "))]))
  = Returned ({| response := py "Hi there! What would you like to know?";
                 confidence := Qmake 100 100 |}, 200%nat)
  /\ chat_json english_services wheat_data
               (PyDict [(py "message", PyStr (py "   "))])
     = ret ({| response := py "Please enter a valid question.";
               confidence := 0%Q |}, 400%nat)
  /\ chat_json english_services wheat_data (PyDict [])
     = ret ({| response := py "Please enter a valid question.";
               confidence := 0%Q |}, 400%nat).
Proof.
  split; [|split].
  - destruct (chat_contract english_services wheat_data
                            [(py "message", PyStr (py " hi "))] (py " hi "))
      as (_ & Hok).
    + right. reflexivity.
    + destruct Hok as (reply & conf & Hres & Hchat & _).
      * vm_compute. discriminate.
      * rewrite Hchat. vm_compute in Hres.
        injection Hres as <- <-. reflexivity.
  - apply (chat_contract english_services wheat_data
                         [(py "message", PyStr (py "   "))] (py "   ")).
    + right. reflexivity.
    + reflexivity.
  - apply (chat_contract english_services wheat_data [] []).
    + left. split; reflexivity.
    + reflexivity.
Defined.

(** C9 fails as stated: a field [message] that is present and is not a
    string, here [null], is neither absent nor empty once trimmed, and
    the handler answers neither 400 nor 200: [strip] raises. *)
Lemma chat_null_message_raises :
  dict_get (py "message") [(py "message", PyNone)] = Some PyNone
  /\ chat_json english_services wheat_data
               (PyDict [(py "message", PyNone)])
     = ([], Raised (PyException "AttributeError"
                      (py "'NoneType' object has no attribute 'strip'")))
  /\ forall body status,
       result (chat_json english_services wheat_data
                         (PyDict [(py "message", PyNone)]))
       <> Returned (body, status).
Proof.
  split; [reflexivity|]. split; [reflexivity|].
  intros body status. discriminate.
Qed.

(** * Further properties of the code *)

(** ** [load_dataset] *)

Section StartupFacts.

Context (sv : Services) (rt : Runtime).

Lemma read_pairs_all_read
    (lines : list pystr) (entries acc : list (pystr * pyvalue)) :
  Forall2 (fun line entry => read_pair sv rt line = Returned entry)
          lines entries ->
  read_pairs sv rt lines acc = (acc ++ entries, None).
Proof.
  intros Hall. revert acc.
  induction Hall as [|line entry lines entries Hline _ IH]; intros acc; simpl.
  - rewrite app_nil_r. reflexivity.
  - rewrite Hline, IH, <- app_assoc. reflexivity.
Qed.

Lemma read_pairs_first_failure
    (good rest : list pystr) (bad : pystr)
    (entries acc : list (pystr * pyvalue)) (e : exn) :
  Forall2 (fun line entry => read_pair sv rt line = Returned entry)
          good entries ->
  read_pair sv rt bad = Raised e ->
  read_pairs sv rt (good ++ bad :: rest) acc = (acc ++ entries, Some e).
Proof.
  intros Hall Hbad. revert acc.
  induction Hall as [|line entry lines entries' Hline _ IH]; intros acc; simpl.
  - rewrite Hbad, app_nil_r. reflexivity.
  - rewrite Hline, IH, <- app_assoc. reflexivity.
Qed.

Lemma read_pair_of_object
    (line prompt : pystr) (completion : pyvalue)
    (items : list (pystr * pyvalue)) :
  json_loads rt (strip line) = Returned (PyDict items) ->
  dict_get (py "prompt") items = Some (PyStr prompt) ->
  dict_get (py "completion") items = Some completion ->
  read_pair sv rt line = Returned (lower sv prompt, completion).
Proof.
  intros Hjson Hp Hc. unfold read_pair. rewrite Hjson. simpl.
  rewrite Hp. simpl. rewrite Hc. reflexivity.
Qed.

End StartupFacts.

(** X1. A dataset file that does not exist is not an error of the
    start-up: [load_dataset] prints the message and returns the empty
    list; and with that dataset the endpoint answers every message that
    is not blank with status 200, the text "Error: No data available."
    and confidence 0, without calling the detector, the translator or
    the embedding model. *)
Theorem missing_file_degrades_service
    (sv : Services) (rt : Runtime) (filepath msg : pystr)
    (data : gmap string pystr) :
  open_lines rt filepath = Raised (PyException "FileNotFoundError" msg) ->
  strip (default [] (data !! "message"%string)) <> [] ->
  load_dataset sv rt filepath
  = ([CallPrint (py "Error: " ++ filepath ++ py " not found.")], Returned [])
  /\ text_pairs [] = Some []
  /\ chat sv [] data
     = ([], Returned ({| response := py "Error: No data available.";
                         confidence := round2 0 |}, 200%nat)).
Proof.
  intros Hopen Hmsg. split; [|split; [reflexivity|]].
  - unfold load_dataset. rewrite Hopen. reflexivity.
  - unfold chat.
    destruct (strip (default [] (data !! "message"%string))); [congruence|].
    reflexivity.
Qed.

Lemma missing_file_degrades_service_witness :
  load_dataset english_services empty_runtime DATASET_PATH
  = ([CallPrint (py "Error: backend/Bigdata_cleaned.jsonl not found.")],
     Returned [])
  /\ text_pairs [] = Some []
  /\ chat english_services [] (<["message"%string := py "hello"]> ∅)
     = ([], Returned ({| response := py "Error: No data available.";
                         confidence := round2 0 |}, 200%nat)).
Proof.
  apply (missing_file_degrades_service
           english_services empty_runtime DATASET_PATH
           (py "[Errno 2] No such file or directory")).
  - reflexivity.
  - rewrite lookup_insert_eq. vm_compute. discriminate.
Defined.

(** X2. When the file opens, reads to its end, and every line parses to
    an object with a string under "prompt" and a value under
    "completion", [load_dataset] returns one pair per line, in the order
    of the lines: the prompt lowercased and the completion as it is.  It
    prints nothing. *)
Theorem load_dataset_well_formed
    (sv : Services) (rt : Runtime) (filepath : pystr)
    (lines : list pystr) (entries : list (pystr * pyvalue)) :
  open_lines rt filepath = Returned (lines, None) ->
  Forall2 (fun line entry =>
             exists items,
               json_loads rt (strip line) = Returned (PyDict items)
               /\ dict_get (py "prompt") items = Some (PyStr (fst entry))
               /\ dict_get (py "completion") items = Some (snd entry))
          lines entries ->
  load_dataset sv rt filepath
  = ([], Returned (map (fun entry => (lower sv (fst entry), snd entry))
                       entries)).
Proof.
  intros Hopen Hall.
  assert (Hread : Forall2 (fun line entry => read_pair sv rt line = Returned entry)
                    lines
                    (map (fun entry => (lower sv (fst entry), snd entry))
                         entries)).
  { clear Hopen.
    induction Hall as [|line entry lines' entries' Hline _ IH]; simpl.
    - constructor.
    - destruct Hline as (items & Hj & Hp & Hc). constructor; [|exact IH].
      apply (read_pair_of_object sv rt line _ _ items Hj Hp Hc). }
  unfold load_dataset. rewrite Hopen.
  rewrite (read_pairs_all_read sv rt lines _ [] Hread). reflexivity.
Qed.

Lemma load_dataset_well_formed_witness :
  load_dataset english_services (file_runtime [wheat_line ++ [0x0A]])
               DATASET_PATH
  = ([], Returned [(py "how to grow wheat",
                    PyStr (py "Sow wheat in November."))]).
Proof.
  apply (load_dataset_well_formed
           english_services (file_runtime [wheat_line ++ [0x0A]])
           DATASET_PATH [wheat_line ++ [0x0A]]
           [(py "How to grow Wheat", PyStr (py "Sow wheat in November."))]).
  - reflexivity.
  - constructor; [|constructor].
    eexists. split; [vm_compute; reflexivity|]. split; reflexivity.
Defined.

(** X3. Only [FileNotFoundError] is handled.  Any other exception ends
    [load_dataset] with that exception and without a dataset, nothing
    printed: when [open] raises it, when a line raises it after lines
    that were read well (the pairs read so far are lost), and when the
    iteration over the file raises it after the last line. *)
Theorem load_dataset_propagates_errors
    (sv : Services) (rt : Runtime) (filepath : pystr) (e : exn) :
  String.eqb (exn_kind e) "FileNotFoundError" = false ->
  (open_lines rt filepath = Raised e ->
   load_dataset sv rt filepath = ([], Raised e))
  /\ (forall good bad rest entries read_error,
        open_lines rt filepath = Returned (good ++ bad :: rest, read_error) ->
        Forall2 (fun line entry => read_pair sv rt line = Returned entry)
                good entries ->
        read_pair sv rt bad = Raised e ->
        load_dataset sv rt filepath = ([], Raised e))
  /\ (forall lines entries,
        open_lines rt filepath = Returned (lines, Some e) ->
        Forall2 (fun line entry => read_pair sv rt line = Returned entry)
                lines entries ->
        load_dataset sv rt filepath = ([], Raised e)).
Proof.
  intros Hkind. split; [|split].
  - intros Hopen. unfold load_dataset, except_file_not_found.
    rewrite Hopen, Hkind. reflexivity.
  - intros good bad rest entries read_error Hopen Hgood Hbad.
    unfold load_dataset, except_file_not_found. rewrite Hopen.
    rewrite (read_pairs_first_failure sv rt good rest bad entries [] e
               Hgood Hbad).
    rewrite Hkind. reflexivity.
  - intros lines entries Hopen Hall.
    unfold load_dataset, except_file_not_found. rewrite Hopen.
    rewrite (read_pairs_all_read sv rt lines entries [] Hall).
    rewrite Hkind. reflexivity.
Qed.

Lemma load_dataset_propagates_errors_witness :
  load_dataset english_services
               (file_runtime [wheat_line ++ [0x0A]; [0x0A]; wheat_line])
               DATASET_PATH
  = ([], Raised (PyException "JSONDecodeError" (py "Expecting value"))).
Proof.
  destruct (load_dataset_propagates_errors
              english_services
              (file_runtime [wheat_line ++ [0x0A]; [0x0A]; wheat_line])
              DATASET_PATH
              (PyException "JSONDecodeError" (py "Expecting value")))
    as (_ & Hline & _).
  - reflexivity.
  - apply (Hline [wheat_line ++ [0x0A]] [0x0A] [wheat_line]
                 [(py "how to grow wheat", PyStr (py "Sow wheat in November."))]
                 None).
    + reflexivity.
    + constructor; [vm_compute; reflexivity | constructor].
    + vm_compute. reflexivity.
Defined.

(** What one line contributes, and how it fails.  The line is
    trimmed before it is parsed.  A parse error is raised as it is; a
    value that is not an object raises [TypeError]; an object without
    "prompt", or without "completion", raises [KeyError] with the key; a
    prompt that is not a string raises [AttributeError]; the completion
    is taken whatever its type. *)
Lemma read_pair_cases
    (sv : Services) (rt : Runtime) (line : pystr) :
  (forall e, json_loads rt (strip line) = Raised e ->
             read_pair sv rt line = Raised e)
  /\ (forall data,
        json_loads rt (strip line) = Returned data ->
        (forall items, data <> PyDict items) ->
        exists msg, read_pair sv rt line
                    = Raised (PyException "TypeError" msg))
  /\ (forall items,
        json_loads rt (strip line) = Returned (PyDict items) ->
        (dict_get (py "prompt") items = None ->
         read_pair sv rt line
         = Raised (PyException "KeyError" (py "'prompt'")))
        /\ (forall prompt,
              dict_get (py "prompt") items = Some prompt ->
              (forall s, prompt <> PyStr s) ->
              exists msg, read_pair sv rt line
                          = Raised (PyException "AttributeError" msg))
        /\ (forall s,
              dict_get (py "prompt") items = Some (PyStr s) ->
              (dict_get (py "completion") items = None ->
               read_pair sv rt line
               = Raised (PyException "KeyError" (py "'completion'")))
              /\ (forall completion,
                    dict_get (py "completion") items = Some completion ->
                    read_pair sv rt line
                    = Returned (lower sv s, completion)))).
Proof.
  unfold read_pair. split; [|split].
  - intros e ->. reflexivity.
  - intros data -> Hnot.
    destruct data; simpl; try (eexists; reflexivity).
    exfalso. eapply Hnot. reflexivity.
  - intros items ->. simpl. split; [|split].
    + intros ->. reflexivity.
    + intros prompt -> Hnot. simpl.
      destruct prompt; simpl; try (eexists; reflexivity).
      exfalso. eapply Hnot. reflexivity.
    + intros s ->. simpl. split.
      * intros ->. reflexivity.
      * intros completion ->. reflexivity.
Qed.

Lemma read_pair_cases_witness :
  read_pair english_services (file_runtime []) (py "  {} " ++ [0x0A])
  = Raised (PyException "KeyError" (py "'prompt'"))
  /\ read_pair english_services (file_runtime []) [0x0A]
     = Raised (PyException "JSONDecodeError" (py "Expecting value")).
Proof.
  destruct (read_pair_cases english_services (file_runtime [])
                            (py "  {} " ++ [0x0A])) as (_ & _ & Hobj).
  destruct (read_pair_cases english_services (file_runtime []) [0x0A])
    as (Hjson & _).
  split.
  - apply (Hobj []); reflexivity.
  - apply Hjson. reflexivity.
Defined.

(** ** White space around the input *)

Lemma lstrip_idempotent (s : pystr) : lstrip (lstrip s) = lstrip s.
Proof.
  induction s as [|c s IH]; simpl; [reflexivity|].
  destruct (isspace c) eqn:Hc; [exact IH|]. simpl. rewrite Hc. reflexivity.
Qed.

Lemma lstrip_space_prefix (ws s : pystr) :
  forallb isspace ws = true -> lstrip (ws ++ s) = lstrip s.
Proof.
  induction ws as [|c ws IH]; simpl; [reflexivity|].
  rewrite andb_true_iff. intros [-> Hws]. exact (IH Hws).
Qed.

Lemma lstrip_all_space (ws : pystr) :
  forallb isspace ws = true -> lstrip ws = [].
Proof.
  intros H. rewrite <- (app_nil_r ws). rewrite (lstrip_space_prefix ws [] H).
  reflexivity.
Qed.

Lemma lstrip_space_suffix (s ws : pystr) :
  forallb isspace ws = true ->
  lstrip (s ++ ws) = lstrip s ++ ws
  \/ (lstrip s = [] /\ lstrip (s ++ ws) = []).
Proof.
  intros Hws. induction s as [|c s IH]; simpl.
  - right. split; [reflexivity | apply lstrip_all_space; exact Hws].
  - destruct (isspace c); [exact IH | left; reflexivity].
Qed.

Lemma forallb_rev (P : N -> bool) (l : pystr) :
  forallb P l = true -> forallb P (rev l) = true.
Proof.
  rewrite !forallb_forall. intros H x Hx. apply H. apply in_rev. exact Hx.
Qed.

Lemma rstrip_space_suffix (s ws : pystr) :
  forallb isspace ws = true -> rstrip (s ++ ws) = rstrip s.
Proof.
  intros Hws. unfold rstrip. rewrite rev_app_distr.
  rewrite (lstrip_space_prefix _ _ (forallb_rev _ _ Hws)). reflexivity.
Qed.

Lemma strip_surrounded (ws s ws' : pystr) :
  forallb isspace ws = true -> forallb isspace ws' = true ->
  strip (ws ++ s ++ ws') = strip s.
Proof.
  intros Hws Hws'. unfold strip. rewrite (lstrip_space_prefix _ _ Hws).
  destruct (lstrip_space_suffix s ws' Hws') as [-> | [-> ->]].
  - apply rstrip_space_suffix. exact Hws'.
  - reflexivity.
Qed.

Lemma strip_idempotent (s : pystr) : strip (strip s) = strip s.
Proof.
  destruct (strip_split s) as (ws & ws' & Hs & Hws & Hws').
  rewrite Hs at 2. symmetry. apply strip_surrounded; assumption.
Qed.

(** The resolver reads its input only through the trimmed text. *)
Lemma resolver_ignores_surrounding_space
    (sv : Services) (qa_data : list (pystr * pystr)) (raw : pystr) :
  (forall other, strip other = strip raw ->
                 find_best_response sv qa_data other
                 = find_best_response sv qa_data raw)
  /\ (forall ws ws',
        forallb isspace ws = true -> forallb isspace ws' = true ->
        find_best_response sv qa_data (ws ++ raw ++ ws')
        = find_best_response sv qa_data raw)
  /\ find_best_response sv qa_data (strip raw)
     = find_best_response sv qa_data raw.
Proof.
  assert (H : forall other, strip other = strip raw ->
                            find_best_response sv qa_data other
                            = find_best_response sv qa_data raw).
  { intros other Heq. unfold find_best_response. rewrite Heq. reflexivity. }
  split; [exact H|]. split.
  - intros ws ws' Hws Hws'. apply H. apply strip_surrounded; assumption.
  - apply H. apply strip_idempotent.
Qed.

(** ** The calls of a run *)

Section Logs.

Context (sv : Services).

Lemma translate_input_log (needs : bool) (original : pystr) :
  calls (translate_input sv needs original)
  = translation_log sv needs original (py "auto") (py "en")
      (fun e => py "Translation error: " ++ exn_msg e).
Proof.
  unfold translate_input, translation_log, call_translate.
  destruct needs; [|reflexivity].
  rewrite calls_try_except. simpl.
  destruct (translate sv original (py "auto") (py "en")); reflexivity.
Qed.

Lemma translate_reply_log
    (label : string) (needs : bool) (tag text : pystr) :
  calls (translate_reply sv label needs tag text)
  = translation_log sv needs text (py "en") tag
      (fun e => py label ++ py " translation error: " ++ exn_msg e).
Proof.
  unfold translate_reply, translation_log, call_translate.
  rewrite calls_try_except.
  destruct needs; [|reflexivity]. simpl.
  destruct (translate sv text (py "en") tag); reflexivity.
Qed.

Lemma check_patterns_log
    (needs : bool) (tag text : pystr) (rules : list (pystr * pystr))
    (otherwise : M (pystr * Q)) :
  calls (check_patterns sv needs tag text rules otherwise)
  = map (fun pattern => CallFullmatch pattern text) (scanned text rules)
    ++ match List.find (fun rule => re_fullmatch (fst rule) text) rules with
       | Some rule =>
           calls (translate_reply sv "Response" needs tag (snd rule))
       | None => calls otherwise
       end.
Proof.
  induction rules as [|[pattern response] rules IH]; simpl; [reflexivity|].
  rewrite calls_bind. simpl.
  destruct (re_fullmatch pattern text).
  - rewrite calls_bind, translate_reply_result. simpl.
    rewrite app_nil_r. reflexivity.
  - rewrite IH. reflexivity.
Qed.

(** The SBERT matching encodes the text and translates one reply: the
    fallback string or a stored answer. *)
Lemma sbert_match_log
    (qa_data : list (pystr * pystr)) (needs : bool) (tag text : pystr) :
  qa_data <> [] ->
  exists label reply conf,
    result (sbert_match sv qa_data needs tag text)
    = Returned (outbound sv needs tag reply, conf)
    /\ calls (sbert_match sv qa_data needs tag text)
       = CallEncode text :: calls (translate_reply sv label needs tag reply)
    /\ (reply = fallback_message \/ In reply (map snd qa_data)).
Proof.
  intros Hne.
  destruct (argmax_spec (similarities sv qa_data text)) as (i & s & Harg & Hmax).
  { unfold similarities. destruct qa_data; [congruence | discriminate]. }
  assert (Hqa : exists qa, qa_data !! i = Some qa).
  { destruct Hmax as (Hat & _). unfold similarities in Hat.
    rewrite list_lookup_fmap in Hat.
    destruct (qa_data !! i) as [qa|]; [eauto | discriminate]. }
  destruct Hqa as [qa Hqa]. destruct Hmax as (Hat & _).
  unfold sbert_match. rewrite result_bind, calls_bind. simpl.
  fold (similarities sv qa_data text).
  rewrite Harg, result_bind, calls_bind. simpl.
  rewrite Hat, result_bind, calls_bind. simpl.
  destruct (Qltb s (1 # 2)).
  - exists "Fallback"%string, fallback_message, s.
    rewrite result_bind, calls_bind, translate_reply_result. simpl.
    rewrite app_nil_r. split; [reflexivity|]. split; [reflexivity|].
    left. reflexivity.
  - exists "Answer"%string, (snd qa), s.
    rewrite Hqa, result_bind, calls_bind. simpl.
    rewrite result_bind, calls_bind, translate_reply_result. simpl.
    rewrite app_nil_r. split; [reflexivity|]. split; [reflexivity|].
    right. apply in_map. apply list_elem_of_In.
    apply (list_elem_of_lookup_2 _ i). exact Hqa.
Qed.

(** A run that passes the language gate, call by call: the detector and
    its line; the translation of the input; the patterns scanned; then
    the encoding of the text if no pattern matched; then the translation
    of the reply. *)
Lemma run_log (qa_data : list (pystr * pystr)) (raw : pystr) :
  qa_data <> [] ->
  unsupported (language_tag sv (strip raw)) (strip raw) = false ->
  let original := strip raw in
  let tag := language_tag sv original in
  let needs := needs_translation tag original (is_romanish sv original) in
  let text := processed sv needs original in
  let hit :=
    List.find (fun rule => re_fullmatch (fst rule) text) predefined_responses in
  exists line label reply conf,
    find_best_response sv qa_data raw
    = ([CallDetect original; CallPrint line]
         ++ calls (translate_input sv needs original)
         ++ map (fun pattern => CallFullmatch pattern text)
                (scanned text predefined_responses)
         ++ match hit with Some _ => [] | None => [CallEncode text] end
         ++ calls (translate_reply sv label needs tag reply),
       Returned (outbound sv needs tag reply, conf))
    /\ match hit with
       | Some rule => reply = snd rule /\ conf = 1%Q
       | None => reply = fallback_message \/ In reply (map snd qa_data)
       end.
Proof.
  intros Hne Hok original tag needs text hit.
  rewrite (find_best_response_run sv qa_data raw Hne), Hok.
  fold original tag needs text.
  destruct (detect_language_calls sv original) as [line ->].
  rewrite check_patterns_log, check_patterns_result. fold hit.
  destruct hit as [rule|].
  - exists line, "Response"%string, (snd rule), 1%Q. split; [|split]; reflexivity.
  - destruct (sbert_match_log qa_data needs tag text Hne)
      as (label & reply & conf & -> & -> & Hreply).
    exists line, label, reply, conf. split; [reflexivity | exact Hreply].
Qed.

End Logs.

Lemma filter_translation_log
    (sv : Services) (needs : bool) (text src dest : pystr)
    (line : exn -> pystr) :
  List.filter is_translation (translation_log sv needs text src dest line)
  = (if needs then [CallTranslate text src dest] else [])
  /\ List.filter is_encode (translation_log sv needs text src dest line) = []
  /\ List.filter is_fullmatch (translation_log sv needs text src dest line)
     = [].
Proof.
  unfold translation_log. destruct needs; [|repeat split; reflexivity].
  destruct (translate sv text src dest); repeat split; reflexivity.
Qed.

Lemma filter_scanned (P : call -> bool) (text : pystr) (patterns : list pystr) :
  (forall pattern, P (CallFullmatch pattern text) = false) ->
  List.filter P (map (fun pattern => CallFullmatch pattern text) patterns)
  = [].
Proof.
  intros HP. induction patterns as [|p l IH]; simpl; [reflexivity|].
  rewrite HP. exact IH.
Qed.

(** X5. In a run that passes the language gate the translator is called
    either not at all, when [needs_translation] is false, or exactly
    twice: first on the trimmed input, from the language the service
    detects into English, then on one reply, from English into the
    language of the tag; and the reply that was translated is the one
    that is returned. *)
Theorem translator_called_twice_or_never
    (sv : Services) (qa_data : list (pystr * pystr)) (raw : pystr) :
  qa_data <> [] ->
  unsupported (language_tag sv (strip raw)) (strip raw) = false ->
  exists reply conf,
    result (find_best_response sv qa_data raw)
    = Returned (outbound sv
                  (needs_translation (language_tag sv (strip raw)) (strip raw)
                                     (is_romanish sv (strip raw)))
                  (language_tag sv (strip raw)) reply, conf)
    /\ List.filter is_translation (calls (find_best_response sv qa_data raw))
       = if needs_translation (language_tag sv (strip raw)) (strip raw)
                              (is_romanish sv (strip raw))
         then [CallTranslate (strip raw) (py "auto") (py "en");
               CallTranslate reply (py "en") (language_tag sv (strip raw))]
         else [].
Proof.
  intros Hne Hok.
  destruct (run_log sv qa_data raw Hne Hok)
    as (line & label & reply & conf & -> & _).
  exists reply, conf. split; [reflexivity|].
  rewrite calls_pair, translate_input_log, translate_reply_log.
  rewrite !List.filter_app.
  rewrite (proj1 (filter_translation_log sv _ _ _ _ _)).
  rewrite (proj1 (filter_translation_log sv _ _ _ _ _)).
  rewrite (filter_scanned is_translation) by reflexivity.
  destruct (List.find _ predefined_responses);
    destruct (needs_translation _ _ _); reflexivity.
Qed.

Lemma translator_called_twice_or_never_witness :
  exists reply conf,
    result (find_best_response english_services wheat_data namaste)
    = Returned (reply, conf)
    /\ List.filter is_translation
         (calls (find_best_response english_services wheat_data namaste))
       = [CallTranslate namaste (py "auto") (py "en");
          CallTranslate reply (py "en") (py "en")].
Proof.
  destruct (translator_called_twice_or_never
              english_services wheat_data namaste)
    as (reply & conf & Hres & Hcalls).
  - discriminate.
  - vm_compute. reflexivity.
  - exists (outbound english_services true (py "en") reply), conf.
    split; [exact Hres|]. rewrite Hcalls. reflexivity.
Defined.

(** X6. The embedding model is asked exactly when it is needed: once, on
    the processed text, when the dataset is not empty, the input passes
    the language gate and no pattern of the table matches; not at all
    over the empty dataset, for a rejected input, or after a pattern
    hit. *)
Theorem embedding_search_only_on_miss
    (sv : Services) (qa_data : list (pystr * pystr)) (raw : pystr) :
  let original := strip raw in
  let tag := language_tag sv original in
  let needs := needs_translation tag original (is_romanish sv original) in
  let text := processed sv needs original in
  List.filter is_encode (calls (find_best_response sv qa_data raw))
  = match qa_data with
    | [] => []
    | _ :: _ =>
        if unsupported tag original then []
        else match List.find (fun rule => re_fullmatch (fst rule) text)
                             predefined_responses with
             | Some _ => []
             | None => [CallEncode text]
             end
    end.
Proof.
  intros original tag needs text.
  destruct qa_data as [|qa rest] eqn:Hdata; [reflexivity|].
  rewrite <- Hdata.
  assert (Hne : qa_data <> []) by (subst; discriminate).
  destruct (unsupported tag original) eqn:Hok.
  - rewrite (find_best_response_run sv qa_data raw Hne).
    fold original tag. rewrite Hok, calls_pair.
    destruct (detect_language_calls sv original) as [line ->]. reflexivity.
  - destruct (run_log sv qa_data raw Hne Hok)
      as (line & label & reply & conf & -> & _).
    fold original tag needs text.
    rewrite calls_pair, translate_input_log, translate_reply_log.
    rewrite !List.filter_app.
    rewrite (proj1 (proj2 (filter_translation_log sv _ _ _ _ _))).
    rewrite (proj1 (proj2 (filter_translation_log sv _ _ _ _ _))).
    rewrite (filter_scanned is_encode) by reflexivity.
    destruct (List.find _ predefined_responses); reflexivity.
Qed.

(** ** Paths through the resolver *)

(** X7. Text that is tagged English and has no Devanagari code point is
    answered without the translator, and the reply is one of the fixed
    strings of the code or an answer of the dataset, as stored: the
    response of a rule (confidence 1), the fallback string, or a stored
    answer. *)
Theorem english_text_answered_verbatim
    (sv : Services) (qa_data : list (pystr * pystr)) (raw : pystr) :
  qa_data <> [] ->
  language_tag sv (strip raw) = py "en" ->
  ~ has_devanagari raw ->
  exists reply conf,
    result (find_best_response sv qa_data raw) = Returned (reply, conf)
    /\ (In reply (map snd predefined_responses) /\ conf = 1%Q
        \/ reply = fallback_message
        \/ In reply (map snd qa_data))
    /\ List.filter is_translation (calls (find_best_response sv qa_data raw))
       = [].
Proof.
  intros Hne Htag Hdeva.
  assert (Hrom : is_romanish sv (strip raw) = false).
  { unfold language_tag in Htag.
    destruct (is_romanish sv (strip raw)); [discriminate | reflexivity]. }
  assert (Hneeds : needs_translation (language_tag sv (strip raw)) (strip raw)
                                     (is_romanish sv (strip raw)) = false).
  { unfold needs_translation. rewrite Htag, Hrom, search_devanagari_strip.
    rewrite <- search_devanagari_spec in Hdeva.
    apply not_true_is_false in Hdeva. rewrite Hdeva. reflexivity. }
  assert (Hok : unsupported (language_tag sv (strip raw)) (strip raw) = false)
    by (rewrite Htag; reflexivity).
  destruct (run_log sv qa_data raw Hne Hok)
    as (line & label & reply & conf & Hrun & Hreply).
  rewrite Hneeds in Hrun, Hreply. rewrite Hrun.
  exists reply, conf. split; [reflexivity|]. split.
  - destruct (List.find _ predefined_responses) as [rule|] eqn:Hfind.
    + destruct Hreply as [-> ->]. left. split; [|reflexivity].
      apply in_map. apply (find_some _ _ Hfind).
    + right. exact Hreply.
  - rewrite calls_pair, translate_input_log, translate_reply_log.
    rewrite !List.filter_app.
    rewrite (filter_scanned is_translation) by reflexivity.
    destruct (List.find _ predefined_responses); reflexivity.
Qed.

Lemma english_text_answered_verbatim_witness :
  exists reply conf,
    result (find_best_response english_services wheat_data
                               (py "When to sow wheat"))
    = Returned (reply, conf)
    /\ (In reply (map snd predefined_responses) /\ conf = 1%Q
        \/ reply = fallback_message
        \/ In reply (map snd wheat_data))
    /\ List.filter is_translation
         (calls (find_best_response english_services wheat_data
                                    (py "When to sow wheat")))
       = [].
Proof.
  apply (english_text_answered_verbatim
           english_services wheat_data (py "When to sow wheat")).
  - discriminate.
  - reflexivity.
  - rewrite <- search_devanagari_spec. vm_compute. discriminate.
Defined.

(** X8. A text with a Devanagari code point is never rejected, whatever
    tag the detector gave it, also one outside the ten allowed tags: the
    run asks for its translation to English and translates the reply
    into the language of that tag. *)
Theorem devanagari_never_rejected
    (sv : Services) (qa_data : list (pystr * pystr)) (raw : pystr) :
  qa_data <> [] ->
  has_devanagari raw ->
  unsupported (language_tag sv (strip raw)) (strip raw) = false
  /\ exists reply conf,
       result (find_best_response sv qa_data raw)
       = Returned (outbound sv true (language_tag sv (strip raw)) reply, conf)
       /\ List.filter is_translation
            (calls (find_best_response sv qa_data raw))
          = [CallTranslate (strip raw) (py "auto") (py "en");
             CallTranslate reply (py "en") (language_tag sv (strip raw))].
Proof.
  intros Hne Hdeva.
  apply search_devanagari_spec in Hdeva.
  rewrite <- search_devanagari_strip in Hdeva.
  assert (Hok : unsupported (language_tag sv (strip raw)) (strip raw) = false).
  { unfold unsupported. rewrite Hdeva, andb_false_r. reflexivity. }
  assert (Hneeds : needs_translation (language_tag sv (strip raw)) (strip raw)
                                     (is_romanish sv (strip raw)) = true).
  { unfold needs_translation. rewrite Hdeva, orb_true_r. reflexivity. }
  split; [exact Hok|].
  destruct (run_log sv qa_data raw Hne Hok)
    as (line & label & reply & conf & Hrun & _).
  rewrite Hneeds in Hrun. rewrite Hrun.
  exists reply, conf. split; [reflexivity|].
  rewrite calls_pair, translate_input_log, translate_reply_log.
  rewrite !List.filter_app.
  rewrite (proj1 (filter_translation_log sv _ _ _ _ _)).
  rewrite (proj1 (filter_translation_log sv _ _ _ _ _)).
  rewrite (filter_scanned is_translation) by reflexivity.
  destruct (List.find _ predefined_responses); reflexivity.
Qed.

Lemma devanagari_never_rejected_witness :
  unsupported (language_tag (constant_services "ne" Returned (6 # 10))
                            (strip namaste)) (strip namaste) = false
  /\ language_tag (constant_services "ne" Returned (6 # 10)) (strip namaste)
     = py "ne"
  /\ list_in (py "ne") allowed_languages = false.
Proof.
  destruct (devanagari_never_rejected
              (constant_services "ne" Returned (6 # 10)) wheat_data namaste)
    as (Hok & _).
  - discriminate.
  - apply search_devanagari_spec. vm_compute. reflexivity.
  - split; [exact Hok | split; reflexivity].
Defined.

(** X9. A failure of the detector is not a failure of the request: the
    run prints the error, takes the text for English unless a keyword
    makes it Hindi, and does not reject it. *)
Theorem detector_failure_means_english
    (sv : Services) (qa_data : list (pystr * pystr)) (raw : pystr) (e : exn) :
  qa_data <> [] ->
  detect sv (strip raw) = Raised e ->
  language_tag sv (strip raw)
  = (if is_romanish sv (strip raw) then py "hi" else py "en")
  /\ unsupported (language_tag sv (strip raw)) (strip raw) = false
  /\ exists rest reply conf,
       find_best_response sv qa_data raw
       = (CallDetect (strip raw)
            :: CallPrint (py "Language detection error: " ++ exn_msg e)
            :: rest,
          Returned (reply, conf))
       /\ In (CallFullmatch (py "how are you")
                (processed sv
                   (needs_translation (language_tag sv (strip raw)) (strip raw)
                                      (is_romanish sv (strip raw)))
                   (strip raw)))
             rest.
Proof.
  intros Hne Hdetect.
  assert (Htag : language_tag sv (strip raw)
                 = (if is_romanish sv (strip raw) then py "hi" else py "en")).
  { unfold language_tag, detected. rewrite Hdetect. reflexivity. }
  assert (Hok : unsupported (language_tag sv (strip raw)) (strip raw) = false).
  { rewrite Htag. destruct (is_romanish sv (strip raw)); reflexivity. }
  split; [exact Htag | split; [exact Hok|]].
  rewrite (find_best_response_run sv qa_data raw Hne), Hok.
  assert (Hlog : calls (detect_language sv (strip raw))
                 = [CallDetect (strip raw);
                    CallPrint (py "Language detection error: " ++ exn_msg e)]).
  { unfold detect_language, call_detect.
    rewrite calls_try_except, result_bind, calls_bind. simpl.
    rewrite Hdetect. reflexivity. }
  rewrite Hlog.
  destruct (find_best_response_returns sv qa_data raw) as (reply & conf & Hres).
  rewrite (find_best_response_run sv qa_data raw Hne), Hok, result_pair in Hres.
  rewrite Hres. eexists _, reply, conf. split; [reflexivity|].
  apply in_or_app. right. rewrite check_patterns_log.
  apply in_or_app. left. left. reflexivity.
Qed.

Lemma detector_failure_means_english_witness :
  language_tag {| detect := service_down;
                  translate := fun text _ _ => Returned text;
                  cos_sim := fun _ _ => (6 # 10)%Q;
                  unicode_lower := fun _ c _ => [c] |}
               (strip (py "hello"))
  = py "en".
Proof.
  destruct (detector_failure_means_english
              {| detect := service_down;
                 translate := fun text _ _ => Returned text;
                 cos_sim := fun _ _ => (6 # 10)%Q;
                 unicode_lower := fun _ c _ => [c] |}
              wheat_data (py "hello")
              (PyException "Exception" (py "service unavailable")))
    as (Htag & _).
  - discriminate.
  - reflexivity.
  - exact Htag.
Defined.

(** ** Greetings *)

(** No pattern of the table contains a keyword; every pattern is its own
    trimmed, lowercased text, in ASCII, and a pattern of the fragment. *)
Lemma table_patterns_plain :
  forallb (fun rule =>
             negb (existsb (fun word => str_in word (fst rule))
                           hindi_marathi_keywords)
             && str_eqb (strip (fst rule)) (fst rule)
             && forallb is_ascii (fst rule)
             && in_fragment (fst rule))
          predefined_responses = true.
Proof. vm_compute. reflexivity. Qed.

Lemma ascii_lower_preimage (c : N) :
  is_ascii (ascii_lower c) = true -> is_ascii c = true.
Proof.
  unfold ascii_lower, is_ascii.
  destruct ((0x41 <=? c) && (c <=? 0x5A)) eqn:Hup; [|tauto].
  intros _. apply andb_true_iff in Hup as [_ H]. apply N.leb_le in H.
  apply N.ltb_lt. lia.
Qed.

Lemma lower_of_ascii (sv : Services) (s : pystr) :
  forallb is_ascii s = true -> lower sv s = map ascii_lower s.
Proof.
  intros Hs. unfold lower.
  rewrite <- (app_nil_r s) at 1.
  rewrite (lower_from_ascii sv s [] [] Hs). simpl. apply app_nil_r.
Qed.

Lemma ascii_has_no_devanagari (s : pystr) :
  forallb is_ascii s = true -> search_devanagari s = false.
Proof.
  intros Hs. apply not_true_is_false. unfold search_devanagari.
  rewrite existsb_exists. intros (c & Hc & Hd).
  rewrite forallb_forall in Hs. specialize (Hs c Hc).
  unfold is_ascii in Hs. apply N.ltb_lt in Hs.
  unfold is_devanagari in Hd. apply andb_true_iff in Hd as [Hd _].
  apply N.leb_le in Hd. lia.
Qed.

(** X10. A greeting of the table, typed in any case of its letters and
    with any white space around it, gets the response of its rule as it
    is written in the code, with confidence 1, whenever the detector
    takes it for English or fails: no keyword occurs in a pattern, so
    nothing is translated, and the embedding model is not asked. *)
Theorem greeting_up_to_case_and_space
    (sv : Services) (qa_data : list (pystr * pystr)) (raw : pystr)
    (pattern response : pystr) :
  qa_data <> [] ->
  In (pattern, response) predefined_responses ->
  map ascii_lower (strip raw) = pattern ->
  detected sv (strip raw) = py "en" ->
  result (find_best_response sv qa_data raw) = Returned (response, 1%Q)
  /\ List.filter is_translation (calls (find_best_response sv qa_data raw))
     = []
  /\ List.filter is_encode (calls (find_best_response sv qa_data raw)) = [].
Proof.
  intros Hne Hin Hfold Hdet.
  pose proof (proj1 (forallb_forall _ _) table_patterns_plain _ Hin) as Hp.
  simpl in Hp. rewrite !andb_true_iff in Hp.
  destruct Hp as (((Hkw & Hstrip) & Hascii) & Hfrag).
  apply negb_true_iff in Hkw. apply str_eqb_eq in Hstrip.
  assert (Hs : forallb is_ascii (strip raw) = true).
  { apply forallb_forall. intros c Hc. apply ascii_lower_preimage.
    rewrite forallb_forall in Hascii. apply Hascii.
    rewrite <- Hfold. apply in_map. exact Hc. }
  assert (Hlow : lower sv (strip raw) = pattern).
  { rewrite (lower_of_ascii sv _ Hs). exact Hfold. }
  assert (Hrom : is_romanish sv (strip raw) = false).
  { unfold is_romanish. rewrite Hlow. exact Hkw. }
  assert (Htag : language_tag sv (strip raw) = py "en").
  { unfold language_tag. rewrite Hrom. exact Hdet. }
  assert (Hneeds : needs_translation (language_tag sv (strip raw)) (strip raw)
                                     (is_romanish sv (strip raw)) = false).
  { unfold needs_translation.
    rewrite Htag, Hrom, (ascii_has_no_devanagari _ Hs). reflexivity. }
  assert (Hok : unsupported (language_tag sv (strip raw)) (strip raw) = false)
    by (rewrite Htag; reflexivity).
  assert (Htext : processed sv false (strip raw) = pattern).
  { unfold processed, inbound. rewrite Hlow. exact Hstrip. }
  assert (Hmatch : re_fullmatch pattern pattern = true).
  { rewrite (re_fullmatch_literal _ _ Hfrag). apply str_eqb_refl. }
  destruct (run_log sv qa_data raw Hne Hok)
    as (line & label & reply & conf & Hrun & Hreply).
  rewrite Hneeds, Htext in Hrun, Hreply.
  rewrite (table_first_match pattern pattern response Hin Hmatch)
    in Hrun, Hreply.
  destruct Hreply as [-> ->]. rewrite Hrun.
  split; [reflexivity|].
  rewrite calls_pair, translate_reply_log, !List.filter_app.
  rewrite (filter_scanned is_translation), (filter_scanned is_encode)
    by reflexivity.
  split; reflexivity.
Qed.

Lemma greeting_up_to_case_and_space_witness :
  result (find_best_response english_services wheat_data
                             (py "  Good Morning" ++ [0x0A]))
  = Returned (py "Good morning! Hope you have a great day ahead.", 1%Q)
  /\ List.filter is_translation
       (calls (find_best_response english_services wheat_data
                                  (py "  Good Morning" ++ [0x0A])))
     = []
  /\ List.filter is_encode
       (calls (find_best_response english_services wheat_data
                                  (py "  Good Morning" ++ [0x0A])))
     = [].
Proof.
  apply (greeting_up_to_case_and_space
           english_services wheat_data (py "  Good Morning" ++ [0x0A])
           (py "good morning")
           (py "Good morning! Hope you have a great day ahead.")).
  - discriminate.
  - do 14 right. left. reflexivity.
  - vm_compute. reflexivity.
  - reflexivity.
Defined.

(** ** The endpoint *)

Lemma resolver_confidence_bounds
    (sv : Services) (qa_data : list (pystr * pystr)) (raw : pystr) :
  (forall query stored, (0 <= cos_sim sv query stored <= 1)%Q) ->
  exists reply conf,
    result (find_best_response sv qa_data raw) = Returned (reply, conf)
    /\ (0 <= conf <= 1)%Q.
Proof.
  intros Hsim.
  destruct qa_data as [|qa rest] eqn:Hdata.
  { exists no_data_message, 0%Q. split; [reflexivity|].
    split; vm_compute; discriminate. }
  rewrite <- Hdata.
  assert (Hne : qa_data <> []) by (subst; discriminate).
  rewrite (find_best_response_run sv qa_data raw Hne).
  destruct (unsupported _ _).
  { exists unsupported_message, 0%Q. split; [reflexivity|].
    split; vm_compute; discriminate. }
  rewrite result_pair, check_patterns_result.
  destruct (List.find _ predefined_responses) as [rule|].
  { eexists _, 1%Q. split; [reflexivity|]. split; vm_compute; discriminate. }
  match goal with
  | |- context [sbert_match sv qa_data ?n ?t ?x] =>
      destruct (sbert_match_result sv qa_data n t x Hne)
        as (i & s & e & (Hat & _) & _ & ->)
  end.
  assert (Hs : (0 <= s <= 1)%Q).
  { unfold similarities in Hat. rewrite list_lookup_fmap in Hat.
    destruct (qa_data !! i) as [e'|]; [|discriminate].
    injection Hat as <-. apply Hsim. }
  destruct (Qltb s (1 # 2)); eexists _, s; split; try reflexivity; exact Hs.
Qed.

Lemma round2_unit_interval (x : Q) :
  (0 <= x <= 1)%Q ->
  (0 <= round_half_even (x * 100) <= 100)%Z.
Proof.
  intros [Hlo Hhi].
  pose proof (round_half_even_close (x * 100)) as H.
  apply Qabs_Qle_condition in H. destruct H as [H1 H2].
  set (z := round_half_even (x * 100)) in *.
  assert (Hz1 : (- (1 # 2) <= inject_Z z)%Q) by lra.
  assert (Hz2 : (inject_Z z <= 100 + (1 # 2))%Q) by lra.
  unfold Qle in Hz1, Hz2. simpl in Hz1, Hz2. lia.
Qed.

Lemma chat_confidence_in_hundredths
    (sv : Services) (qa_data : list (pystr * pystr))
    (data : gmap string pystr) :
  (forall query stored, (0 <= cos_sim sv query stored <= 1)%Q) ->
  exists body status n,
    result (chat sv qa_data data) = Returned (body, status)
    /\ (status = 200%nat \/ status = 400%nat)
    /\ (0 <= n <= 100)%Z
    /\ (confidence body == Qmake n 100)%Q.
Proof.
  intros Hsim. unfold chat.
  destruct (strip (default [] (data !! "message"%string))) as [|c rest] eqn:Hm.
  - eexists _, 400%nat, 0%Z. split; [reflexivity|].
    split; [right; reflexivity|]. split; [lia | reflexivity].
  - destruct (resolver_confidence_bounds sv qa_data (c :: rest) Hsim)
      as (reply & conf & Hres & Hconf).
    rewrite result_bind, Hres.
    eexists _, 200%nat, (round_half_even (conf * 100)).
    split; [reflexivity|]. split; [left; reflexivity|].
    split; [apply round2_unit_interval; exact Hconf | reflexivity].
Qed.

(** X12. On a body that is an object whose field [message] is a string
    or is absent, and when the similarities of the embedding model lie
    in [0, 1], the endpoint returns, with status 200 or 400, and the
    confidence of its body is a whole number of hundredths between 0 and
    1. *)
Theorem endpoint_confidence_in_hundredths
    (sv : Services) (qa_data : list (pystr * pystr))
    (items : list (pystr * pyvalue)) (message : pystr) :
  dict_get (py "message") items = None /\ message = []
  \/ dict_get (py "message") items = Some (PyStr message) ->
  (forall query stored, (0 <= cos_sim sv query stored <= 1)%Q) ->
  exists body status n,
    result (chat_json sv qa_data (PyDict items)) = Returned (body, status)
    /\ (status = 200%nat \/ status = 400%nat)
    /\ (0 <= n <= 100)%Z
    /\ (confidence body == Qmake n 100)%Q.
Proof.
  intros Hmessage Hsim.
  destruct (chat_json_string_message sv qa_data items) as (Hstr & Habsent).
  destruct Hmessage as [[Hnone _] | Hsome].
  - rewrite (Habsent Hnone). apply chat_confidence_in_hundredths, Hsim.
  - rewrite (Hstr message Hsome). apply chat_confidence_in_hundredths, Hsim.
Qed.

Lemma endpoint_confidence_in_hundredths_witness :
  exists body status n,
    result (chat_json english_services wheat_data
                      (PyDict [(py "message",
                                PyStr (py "when to sow wheat"))]))
    = Returned (body, status)
    /\ (status = 200%nat \/ status = 400%nat)
    /\ (0 <= n <= 100)%Z
    /\ (confidence body == Qmake n 100)%Q.
Proof.
  apply (endpoint_confidence_in_hundredths
           english_services wheat_data
           [(py "message", PyStr (py "when to sow wheat"))]
           (py "when to sow wheat")).
  - right. reflexivity.
  - intros query stored. split; vm_compute; discriminate.
Defined.

(** ** The loop over the table *)

Lemma find_after_misses
    (text : pystr) (before l : list (pystr * pystr)) :
  (forall r, In r before -> re_fullmatch (fst r) text = false) ->
  List.find (fun r => re_fullmatch (fst r) text) (before ++ l)
  = List.find (fun r => re_fullmatch (fst r) text) l.
Proof.
  induction before as [|r before' IH]; intros Hbefore; simpl; [reflexivity|].
  rewrite (Hbefore r) by (left; reflexivity).
  apply IH. intros r' Hr'. apply Hbefore. right. exact Hr'.
Qed.

Lemma scanned_after_misses
    (text : pystr) (before l : list (pystr * pystr)) :
  (forall r, In r before -> re_fullmatch (fst r) text = false) ->
  scanned text (before ++ l) = map fst before ++ scanned text l.
Proof.
  induction before as [|[p x] before' IH]; intros Hbefore; simpl;
    [reflexivity|].
  pose proof (Hbefore (p, x) (or_introl eq_refl)) as Hpx.
  simpl in Hpx. rewrite Hpx. rewrite IH; [reflexivity|].
  intros r' Hr'. apply Hbefore. right. exact Hr'.
Qed.

(** The loop in the model: the first rule that matches ends it. *)
Lemma check_patterns_first_match
    (sv : Services) (needs : bool) (tag text : pystr)
    (before after : list (pystr * pystr)) (rule : pystr * pystr)
    (otherwise : M (pystr * Q)) :
  (forall r, In r before -> re_fullmatch (fst r) text = false) ->
  re_fullmatch (fst rule) text = true ->
  check_patterns sv needs tag text (before ++ rule :: after) otherwise
  = (map (fun pattern => CallFullmatch pattern text)
         (map fst before ++ [fst rule])
       ++ calls (translate_reply sv "Response" needs tag (snd rule)),
     Returned (outbound sv needs tag (snd rule), 1%Q))
  /\ check_patterns sv needs tag text before otherwise
     = (map (fun pattern => CallFullmatch pattern text) (map fst before)
          ++ calls otherwise,
        result otherwise).
Proof.
  intros Hbefore Hrule.
  pose proof (fun l => find_after_misses text before l Hbefore) as Hfind.
  pose proof (fun l => scanned_after_misses text before l Hbefore) as Hscan.
  split.
  - rewrite (surjective_pairing (check_patterns _ _ _ _ _ _)).
    fold (calls (check_patterns sv needs tag text (before ++ rule :: after)
                                otherwise)).
    fold (result (check_patterns sv needs tag text (before ++ rule :: after)
                                 otherwise)).
    rewrite check_patterns_log, check_patterns_result, Hfind, Hscan.
    destruct rule as [p x]. simpl in *. rewrite Hrule. reflexivity.
  - rewrite (surjective_pairing (check_patterns _ _ _ _ _ _)).
    fold (calls (check_patterns sv needs tag text before otherwise)).
    fold (result (check_patterns sv needs tag text before otherwise)).
    rewrite check_patterns_log, check_patterns_result.
    specialize (Hfind []). specialize (Hscan []).
    rewrite app_nil_r in Hfind, Hscan. rewrite Hfind, Hscan. simpl.
    rewrite app_nil_r. reflexivity.
Qed.

(** X13. The loop over a table of literal patterns with distinct keys,
    as a dictionary of such patterns is: when the text is the pattern of
    a rule, the patterns before it are tried in order, the response of
    that rule is returned with confidence 1 (translated if needed), and
    neither the rules after it nor the code after the loop run; over the
    rules before it alone, every pattern is tried, in order, and the code
    after the loop decides. *)
Theorem loop_stops_at_first_match
    (sv : Services) (needs : bool) (tag text response : pystr)
    (before after : list (pystr * pystr)) (otherwise : M (pystr * Q)) :
  forallb (fun rule => in_fragment (fst rule))
          (before ++ (text, response) :: after) = true ->
  NoDup (map fst (before ++ (text, response) :: after)) ->
  check_patterns sv needs tag text (before ++ (text, response) :: after)
                 otherwise
  = (map (fun pattern => CallFullmatch pattern text)
         (map fst before ++ [text])
       ++ calls (translate_reply sv "Response" needs tag response),
     Returned (outbound sv needs tag response, 1%Q))
  /\ check_patterns sv needs tag text before otherwise
     = (map (fun pattern => CallFullmatch pattern text) (map fst before)
          ++ calls otherwise,
        result otherwise).
Proof.
  intros Hfrag Hnodup.
  rewrite forallb_app in Hfrag. apply andb_true_iff in Hfrag as [Hfb Hfr].
  simpl in Hfr. apply andb_true_iff in Hfr as [Hft _].
  rewrite map_app in Hnodup. simpl in Hnodup.
  apply NoDup_app in Hnodup as (_ & Hsep & _).
  apply (check_patterns_first_match sv needs tag text before after
                                    (text, response) otherwise).
  - intros r Hr. rewrite re_fullmatch_literal.
    + apply str_eqb_neq. intros Heq.
      apply (Hsep (fst r)).
      * apply list_elem_of_In. apply in_map. exact Hr.
      * rewrite <- Heq. left.
    + rewrite forallb_forall in Hfb. apply (Hfb r Hr).
  - simpl. rewrite (re_fullmatch_literal _ _ Hft). apply str_eqb_refl.
Qed.

Lemma loop_stops_at_first_match_witness :
  result (check_patterns english_services false (py "en") (py "hi")
            ([(py "hello", py "A")]
               ++ (py "hi", py "B") :: [(py "hey", py "C")])
            (raise (PyException "Exception" (py "not reached"))))
  = Returned (py "B", 1%Q).
Proof.
  destruct (loop_stops_at_first_match
              english_services false (py "en") (py "hi") (py "B")
              [(py "hello", py "A")] [(py "hey", py "C")]
              (raise (PyException "Exception" (py "not reached"))))
    as (Hhit & _).
  - vm_compute. reflexivity.
  - apply (bool_decide_unpack
             (NoDup (map fst ([(py "hello", py "A")]
                                ++ (py "hi", py "B") :: [(py "hey", py "C")])))).
    vm_compute. exact I.
  - rewrite Hhit. reflexivity.
Defined.

(** ** Translation failures *)

(** C8. Whatever the translation service does, the resolver returns a
    reply.  In a run that translates (dataset not empty, language gate
    passed, [needs_translation] true) each of the three sites falls back
    on the text it was given and the run goes on:
    (a) when the translation of the input raises, the error is printed
    and the table and the embedding search work on the input itself,
    lowercased and trimmed;
    (b) after a pattern hit, the reply is the rule's response when its
    translation raises, and the translation when it returns;
    (c) after a miss, the reply is the stored answer or the fallback
    string when its translation raises, and the translation when it
    returns, with the raw score in both cases.
    Sites (b) and (c) are stated on the processed text whatever happened
    at site (a).  The two guarded blocks taken alone return the text they
    were given when the service raises. *)
Theorem translation_failure_not_fatal
    (sv : Services) (qa_data : list (pystr * pystr)) (raw : pystr) :
  let original := strip raw in
  let tag := language_tag sv original in
  let needs := needs_translation tag original (is_romanish sv original) in
  let text := processed sv needs original in
  (exists reply conf,
     result (find_best_response sv qa_data raw) = Returned (reply, conf))
  /\ (forall input e,
        translate sv input (py "auto") (py "en") = Raised e ->
        result (translate_input sv true input) = Returned input)
  /\ (forall label dest reply e,
        translate sv reply (py "en") dest = Raised e ->
        result (translate_reply sv label true dest reply) = Returned reply)
  /\ (qa_data <> [] -> unsupported tag original = false -> needs = true ->
      (forall e,
         translate sv original (py "auto") (py "en") = Raised e ->
         text = strip (lower sv original)
         /\ In (CallPrint (py "Translation error: " ++ exn_msg e))
               (calls (find_best_response sv qa_data raw))
         /\ In (CallFullmatch (py "how are you") (strip (lower sv original)))
               (calls (find_best_response sv qa_data raw)))
      /\ (forall pattern response,
            In (pattern, response) predefined_responses ->
            re_fullmatch pattern text = true ->
            (forall e,
               translate sv response (py "en") tag = Raised e ->
               result (find_best_response sv qa_data raw)
               = Returned (response, 1%Q))
            /\ (forall translated,
                  translate sv response (py "en") tag = Returned translated ->
                  result (find_best_response sv qa_data raw)
                  = Returned (translated, 1%Q)))
      /\ ((forall rule, In rule predefined_responses ->
                        re_fullmatch (fst rule) text = false) ->
          exists i s qa,
            is_first_max (similarities sv qa_data text) i s
            /\ qa_data !! i = Some qa
            /\ (forall e,
                  translate sv (if Qltb s (1 # 2) then fallback_message
                                else snd qa) (py "en") tag = Raised e ->
                  result (find_best_response sv qa_data raw)
                  = Returned (if Qltb s (1 # 2) then fallback_message
                              else snd qa, s))
            /\ (forall translated,
                  translate sv (if Qltb s (1 # 2) then fallback_message
                                else snd qa) (py "en") tag
                  = Returned translated ->
                  result (find_best_response sv qa_data raw)
                  = Returned (translated, s)))).
Proof.
  intros original tag needs text.
  split; [apply find_best_response_returns|].
  split.
  { intros input e He.
    rewrite translate_input_result. unfold inbound. rewrite He. reflexivity. }
  split.
  { intros label dest reply e He.
    rewrite translate_reply_result. unfold outbound. rewrite He. reflexivity. }
  intros Hne Hok Hneeds.
  pose proof (find_best_response_run sv qa_data raw Hne) as Hrun.
  cbv zeta in Hrun. fold original tag needs text in Hrun.
  rewrite Hok in Hrun. rewrite Hrun, result_pair, calls_pair.
  rewrite check_patterns_result, check_patterns_log, translate_input_log.
  split; [|split].
  - intros e He.
    assert (Htext : text = strip (lower sv original)).
    { unfold text, processed, inbound. rewrite Hneeds, He. reflexivity. }
    split; [exact Htext|]. split.
    + apply in_or_app. right. apply in_or_app. left.
      unfold translation_log. rewrite Hneeds, He. right. left. reflexivity.
    + apply in_or_app. right. apply in_or_app. right.
      apply in_or_app. left. rewrite <- Htext. left. reflexivity.
  - intros pattern response Hin Hmatch.
    rewrite (table_first_match text pattern response Hin Hmatch).
    unfold outbound. rewrite Hneeds. simpl.
    split; [intros e He | intros translated He]; rewrite He; reflexivity.
  - intros Hmiss.
    destruct (sbert_match_result sv qa_data needs tag text Hne)
      as (i & s & qa & Hmax & Hqa & Hres).
    exists i, s, qa. split; [exact Hmax | split; [exact Hqa|]].
    rewrite (table_no_match text Hmiss), Hres.
    unfold outbound. rewrite Hneeds.
    destruct (Qltb s (1 # 2));
      (split; [intros e He | intros translated He]; rewrite He; reflexivity).
Qed.

Lemma translation_failure_not_fatal_witness :
  result (find_best_response (constant_services "mr" service_down (6 # 10))
                             wheat_data (py "hello"))
  = Returned (py "Hello! How can I assist you today?", 1%Q).
Proof.
  destruct (translation_failure_not_fatal
              (constant_services "mr" service_down (6 # 10))
              wheat_data (py "hello")) as (_ & _ & _ & Hrun).
  destruct Hrun as (_ & Hhit & _).
  - discriminate.
  - vm_compute. reflexivity.
  - vm_compute. reflexivity.
  - destruct (Hhit (py "hello") (py "Hello! How can I assist you today?"))
      as (Hfail & _).
    + do 11 right. left. reflexivity.
    + vm_compute. reflexivity.
    + apply (Hfail (PyException "Exception" (py "service unavailable"))).
      reflexivity.
Defined.
